(** * OpenStack inventory plugin: a shallow embedding of
      [openstack-inventory.py] and the properties of its inventory builder.

    The development follows the source file top to bottom.  Python values
    are embedded as follows:

    - a [str] is a [string]; only ASCII text is considered, so the white
      space removed by [str.strip()] is the ASCII part of Python's
      [str.isspace] (code points 9-13, 28-31 and 32);
    - a [dict] is an association list kept in insertion order, because the
      code iterates over its dictionaries ([self.servers.items()],
      [metadata.items()], [for host in self.hostvars]) and the order of
      those iterations decides the order of the calls on the inventory;
    - an instance record is a [server]: the keys the code reads with a bare
      subscript on every path ([name], [id], [region], [cloud], [flavor],
      [image]) are plain fields, the keys it reads with [.get] or tests
      with [in] ([metadata], [az], [interface_ip]) are optional fields;
    - an exception is a value of [exn], and every method of the class is a
      state transformer over the attributes of [self] that either returns
      or raises. *)

From Stdlib Require Import List String Ascii Bool Arith ZArith Lia Permutation.
Import ListNotations.
Local Open Scope list_scope.
Local Open Scope string_scope.

(** ** Python strings *)

Module PyStr.

(** [bool(s)] for a string: the empty string is false. *)
Definition truthy (s : string) : bool :=
  match s with
  | EmptyString => false
  | String _ _ => true
  end.

(** ASCII characters for which [str.isspace] holds. *)
Definition is_space (c : ascii) : bool :=
  let n := nat_of_ascii c in
  (((9 <=? n) && (n <=? 13)) || ((28 <=? n) && (n <=? 32)))%nat.

Fixpoint lstrip (s : string) : string :=
  match s with
  | EmptyString => EmptyString
  | String c r => if is_space c then lstrip r else s
  end.

Fixpoint rstrip (s : string) : string :=
  match s with
  | EmptyString => EmptyString
  | String c r =>
      match rstrip r with
      | EmptyString => if is_space c then EmptyString else String c EmptyString
      | r' => String c r'
      end
  end.

(** [s.strip()] *)
Definition strip (s : string) : string := rstrip (lstrip s).

(** [s.split(sep)] for a one-character separator: every occurrence of the
    separator ends a piece, so the result has one piece more than there
    are separators and [""] splits into [[""]]. *)
Fixpoint split (sep : ascii) (s : string) : list string :=
  match s with
  | EmptyString => [EmptyString]
  | String c r =>
      if Ascii.eqb c sep then EmptyString :: split sep r
      else match split sep r with
           | p :: ps => String c p :: ps
           | [] => [String c EmptyString]
           end
  end.

(** [s.endswith(suffix)] *)
Fixpoint endswith (s suffix : string) : bool :=
  if String.eqb s suffix then true
  else match s with
       | EmptyString => false
       | String _ r => endswith r suffix
       end.

(** ["%s_%s" % (a, b)] *)
Definition fmt_underscore (a b : string) : string := a ++ "_" ++ b.

(** ["%s-%s" % (a, b)] *)
Definition fmt_dash (a b : string) : string := a ++ "-" ++ b.

End PyStr.

(** ** Python dictionaries, in insertion order *)

Module PyDict.

Definition t (V : Type) : Type := list (string * V).

(** [d.get(k)] *)
Fixpoint get {V} (d : t V) (k : string) : option V :=
  match d with
  | [] => None
  | (k', v) :: r => if String.eqb k' k then Some v else get r k
  end.

(** [k in d] *)
Definition contains {V} (d : t V) (k : string) : bool :=
  match get d k with
  | Some _ => true
  | None => false
  end.

(** [d[k] = v]: an existing key keeps its position, a new key goes last. *)
Fixpoint set {V} (d : t V) (k : string) (v : V) : t V :=
  match d with
  | [] => [(k, v)]
  | (k', v') :: r =>
      if String.eqb k' k then (k', v) :: r else (k', v') :: set r k v
  end.

(** [d[k].append(x)] on a [collections.defaultdict(list)]: a missing key
    is first inserted with an empty list. *)
Fixpoint append_to {X} (d : t (list X)) (k : string) (x : X) : t (list X) :=
  match d with
  | [] => [(k, [x])]
  | (k', l) :: r =>
      if String.eqb k' k then (k', (l ++ [x])%list) :: r
      else (k', l) :: append_to r k x
  end.

Definition keys {V} (d : t V) : list string := map fst d.

Definition values {V} (d : t V) : list V := map snd d.

End PyDict.

(** ** Data model *)

(** One instance record, as returned by the SDK's [list_hosts]. *)
Record server : Type := mkServer {
  sv_id : string;
  sv_name : string;
  sv_cloud : string;
  sv_region : string;
  sv_az : option string;
  sv_interface_ip : option string;
  sv_flavor : PyDict.t string;
  sv_image : PyDict.t string;
  sv_metadata : option (PyDict.t string)
}.

(** ["interface_ip" in server] *)
Definition has_interface_ip (s : server) : bool :=
  match sv_interface_ip s with
  | Some _ => true
  | None => false
  end.

(** [server_data[key]] for the two keys of the flavor/image loop. *)
Definition server_mapping (server_data : server) (key : string) : PyDict.t string :=
  if String.eqb key "flavor" then sv_flavor server_data else sv_image server_data.

(** *** Group name derivation

    [_get_group_names_from_server_data], lines 359-409.  The list
    [server_groups] is built by successive [append]s; each [let] below is
    one statement of the source. *)

Definition extra_groups (metadata : PyDict.t string) : list string :=
  let groups_value :=
    match PyDict.get metadata "groups" with
    | Some v => v
    | None => ""
    end in
  flat_map
    (fun extra_group =>
       if PyStr.truthy extra_group then [PyStr.strip extra_group] else [])
    (PyStr.split "," groups_value).

Definition flavor_image_groups (server_data : server) : list string :=
  flat_map
    (fun key =>
       match PyDict.get (server_mapping server_data key) "name" with
       | Some n => [PyStr.fmt_dash key n]
       | None => []
       end)
    ["flavor"; "image"].

Definition meta_groups (metadata : PyDict.t string) : list string :=
  map (fun kv => "meta-" ++ PyStr.fmt_underscore (fst kv) (snd kv)) metadata.

Definition az_groups (server_data : server) : list string :=
  let region := sv_region server_data in
  let cloud := sv_cloud server_data in
  match sv_az server_data with
  | Some az =>
      if PyStr.truthy az then
        [az; PyStr.fmt_underscore region az;
         cloud ++ "_" ++ region ++ "_" ++ az]
      else []
  | None => []
  end.

Definition _get_group_names_from_server_data
    (server_data : server) (namegroup : bool) : list string :=
  let region := sv_region server_data in
  let cloud := sv_cloud server_data in
  let metadata :=
    match sv_metadata server_data with
    | Some m => m
    | None => []
    end in
  (let server_groups := [cloud] in
  let server_groups :=
    if PyStr.truthy region then server_groups ++ [region] else server_groups in
  let server_groups := server_groups ++ [PyStr.fmt_underscore cloud region] in
  let server_groups :=
    match PyDict.get metadata "group" with
    | Some g => server_groups ++ [g]
    | None => server_groups
    end in
  let server_groups := server_groups ++ extra_groups metadata in
  let server_groups :=
    server_groups ++ [("instance-" ++ sv_id server_data)%string] in
  let server_groups :=
    if namegroup then server_groups ++ [sv_name server_data] else server_groups in
  let server_groups := server_groups ++ flavor_image_groups server_data in
  let server_groups := server_groups ++ meta_groups metadata in
  server_groups ++ az_groups server_data)%list.

(** ** Configuration values *)

(** A value read from the YAML configuration file. *)
#[local] Set Warnings "-register-all".
Inductive yaml : Type :=
| YNull
| YBool (b : bool)
| YInt (n : Z)
| YStr (s : string)
| YList (l : list yaml)
| YMap (m : list (string * yaml)).

Definition config : Type := PyDict.t yaml.

(** [bool(v)] *)
Definition yaml_truthy (v : yaml) : bool :=
  match v with
  | YNull => false
  | YBool b => b
  | YInt n => negb (Z.eqb n 0)
  | YStr s => PyStr.truthy s
  | YList [] => false
  | YList (_ :: _) => true
  | YMap [] => false
  | YMap (_ :: _) => true
  end.

(** [isinstance(v, bool)] *)
Definition is_bool (v : yaml) : bool :=
  match v with
  | YBool _ => true
  | _ => false
  end.

(** [isinstance(v, list)] *)
Definition is_list (v : yaml) : bool :=
  match v with
  | YList _ => true
  | _ => false
  end.

(** [v == s] for a string [s] *)
Definition yaml_eq_str (v : yaml) (s : string) : bool :=
  match v with
  | YStr s' => String.eqb s' s
  | _ => false
  end.

(** [data.get(k)], which is [None] for a missing key *)
Definition cfg_get (data : config) (k : string) : yaml :=
  match PyDict.get data k with
  | Some v => v
  | None => YNull
  end.

(** [data.get(k, default)] *)
Definition cfg_get_default (data : config) (k : string) (default : yaml) : yaml :=
  match PyDict.get data k with
  | Some v => v
  | None => default
  end.

(** [self.NAME] *)
Definition NAME : string := "openstack-inventory".

(** ** Exceptions, the inventory sink and the plugin object *)

Inductive config_error : Type :=
| ConfigFileIsEmpty
| IncorrectPluginConfig (found : yaml)
| MissingPluginAndClouds
| InvalidConfigDataType.

Inductive exn : Type :=
| KeyError (key : string)
| IndexError
| TypeError
| UnboundLocalError (variable : string)
| AttributeError (attribute : string)
| AnsibleParserError (e : config_error)
| CollaboratorError (msg : string).

Inductive result (A : Type) : Type :=
| Ok (a : A)
| Raise (e : exn).
Arguments Ok {A} a.
Arguments Raise {A} e.

(** The value of one host variable. *)
Inductive var_value : Type :=
| VarStr (s : string)
| VarServer (s : server).

(** The calls received by [self.inventory], the framework's inventory
    object. *)
Inductive sink_call : Type :=
| AddHost (host : string)
| AddGroup (group : string)
| AddChild (group host : string)
| SetVariable (host variable : string) (value : var_value).

Definition sink : Type := list sink_call.

(** The dictionary built by [_store_host_data] for one host. *)
Record host_entry : Type := mkEntry {
  ansible_ssh_host : string;
  ansible_host : string;
  openstack : server
}.

(** [self.hostvars[host].items()], in the order of the keyword arguments
    of [dict(...)]. *)
Definition entry_items (e : host_entry) : list (string * var_value) :=
  [("ansible_ssh_host", VarStr (ansible_ssh_host e));
   ("ansible_host", VarStr (ansible_host e));
   ("openstack", VarServer (openstack e))].

(** One cloud account discovered by the SDK. *)
Record cloud : Type := mkCloud { cloud_name : string }.

(** The SDK's [OpenStackInventory] object. *)
Record os_inventory : Type := mkOsInventory {
  inv_config_files : list yaml;
  inv_private : yaml;
  clouds : list cloud
}.

(** The attributes of [self] that the class assigns. *)
Record plugin : Type := mkPlugin {
  _config_data : config;
  expand_hostvars : yaml;
  fail_on_errors : yaml;
  show_all : yaml;
  servers : PyDict.t (list server);
  groups : PyDict.t (list string);
  hostvars : PyDict.t host_entry;
  inventory : sink;
  _cache : PyDict.t (list server)
}.

Definition set_config_data (v : config) (st : plugin) : plugin :=
  mkPlugin v (expand_hostvars st) (fail_on_errors st) (show_all st)
           (servers st) (groups st) (hostvars st) (inventory st) (_cache st).

Definition set_flags (e f s : yaml) (st : plugin) : plugin :=
  mkPlugin (_config_data st) e f s
           (servers st) (groups st) (hostvars st) (inventory st) (_cache st).

Definition set_servers (v : PyDict.t (list server)) (st : plugin) : plugin :=
  mkPlugin (_config_data st) (expand_hostvars st) (fail_on_errors st)
           (show_all st) v (groups st) (hostvars st) (inventory st) (_cache st).

Definition set_groups (v : PyDict.t (list string)) (st : plugin) : plugin :=
  mkPlugin (_config_data st) (expand_hostvars st) (fail_on_errors st)
           (show_all st) (servers st) v (hostvars st) (inventory st) (_cache st).

Definition set_hostvars (v : PyDict.t host_entry) (st : plugin) : plugin :=
  mkPlugin (_config_data st) (expand_hostvars st) (fail_on_errors st)
           (show_all st) (servers st) (groups st) v (inventory st) (_cache st).

Definition set_inventory (v : sink) (st : plugin) : plugin :=
  mkPlugin (_config_data st) (expand_hostvars st) (fail_on_errors st)
           (show_all st) (servers st) (groups st) (hostvars st) v (_cache st).

Definition set_cache (v : PyDict.t (list server)) (st : plugin) : plugin :=
  mkPlugin (_config_data st) (expand_hostvars st) (fail_on_errors st)
           (show_all st) (servers st) (groups st) (hostvars st) (inventory st) v.

(** A freshly constructed plugin object: nothing configured, an empty
    inventory and an empty cache. *)
Definition fresh_plugin : plugin :=
  mkPlugin [] YNull YNull YNull [] [] [] [] [].

(** *** Methods as state transformers that may raise

    When a method raises, the state is the one reached at the [raise]:
    the assignments made before it stay visible, as in Python. *)

Definition M (A : Type) : Type := plugin -> result A * plugin.

Definition ret {A} (a : A) : M A := fun st => (Ok a, st).

Definition raise {A} (e : exn) : M A := fun st => (Raise e, st).

Definition bind {A B} (m : M A) (k : A -> M B) : M B :=
  fun st =>
    match m st with
    | (Ok a, st') => k a st'
    | (Raise e, st') => (Raise e, st')
    end.

Definition gets {A} (f : plugin -> A) : M A := fun st => (Ok (f st), st).

Definition modify (f : plugin -> plugin) : M unit := fun st => (Ok tt, f st).

Notation "x <- m ;; k" := (bind m (fun x => k))
  (at level 61, m at next level, right associativity).
Notation "m ;;; k" := (bind m (fun _ => k))
  (at level 61, right associativity).

(** [for x in l: body(x)] *)
Fixpoint for_each {A} (l : list A) (body : A -> M unit) : M unit :=
  match l with
  | [] => ret tt
  | x :: r => body x ;;; for_each r body
  end.

(** One call on [self.inventory]. *)
Definition emit (c : sink_call) : M unit :=
  modify (fun st => set_inventory (inventory st ++ [c])%list st).

(** A collaborator that only acts on the inventory sink. *)
Definition on_sink (f : sink -> result unit * sink) : M unit :=
  fun st =>
    let (r, k) := f (inventory st) in (r, set_inventory k st).

(** ** Wording of the specification, for comparison

    The specification speaks of the "file name" of a configuration path.
    These two definitions follow its words; they are compared with
    [verify_file] below. *)

(** The four file names of the specification. *)
Definition config_file_names : list string :=
  ["openstack.yml"; "openstack.yaml"; "clouds.yml"; "clouds.yaml"].

Definition has_slash (path : string) : bool :=
  existsb (Ascii.eqb "/") (list_ascii_of_string path).

(** The file name of a path: what follows its last ["/"]. *)
Fixpoint file_name (path : string) : string :=
  match path with
  | EmptyString => EmptyString
  | String c r =>
      if Ascii.eqb c "/" then file_name r
      else if has_slash r then file_name r
      else path
  end.

(** "A path is accepted exactly when its file name is one of the four." *)
Definition spec_accepts_file (path : string) : bool :=
  existsb (String.eqb (file_name path)) config_file_names.

(** The specification's "retained records": with [show_all] unset, the
    records that have an [interface_ip]; with it set, all of them. *)
Definition retained (show : yaml) (hosts_data : list server) : list server :=
  filter (fun s => has_interface_ip s || yaml_truthy show) hosts_data.

(** The records named [name]. *)
Definition named (name : string) (s : server) : bool :=
  String.eqb (sv_name s) name.

(** The specification's "partition of retained records sharing the same
    name". *)
Definition name_partition (name : string) (kept : list server) : list server :=
  filter (named name) kept.

(** ** Sample data *)

Module Sample.

(** A reachable server with the metadata of the specification's example. *)
Definition web01 : server :=
  mkServer "id-1" "web01" "rax" "" (Some "az1") (Some "10.0.0.1")
           [("name", "m1.small")] [("id", "img-7")]
           (Some [("group", "web"); ("groups", "a, b")]).

(** A server whose ["groups"] value has a piece made of one space. *)
Definition blank_piece : server :=
  mkServer "id-2" "db01" "rax" "dfw" None (Some "10.0.0.2") [] []
           (Some [("groups", "a, ,b")]).

Definition bare (id name : string) (ip : option string) : server :=
  mkServer id name "c" "r" None ip [] [] None.

(** Two instances named [a], an unreachable [b], and [d] listed twice. *)
Definition fleet : list server :=
  [bare "1" "a" (Some "10.0.0.1"); bare "2" "a" (Some "10.0.0.2");
   bare "3" "b" None;
   bare "4" "d" (Some "10.0.0.4"); bare "4" "d" (Some "10.0.0.4")].

(** A collaborator of [Constructable] with nothing to do (no [compose],
    [groups] or [keyed_groups] configured). *)
Definition idle : yaml -> host_entry -> string -> sink -> result unit * sink :=
  fun _ _ _ k => (Ok tt, k).

(** A plugin object about to run [_populate_inventory]. *)
Definition configured (cfg : config) (show : yaml) : plugin :=
  mkPlugin cfg (YBool false) (YBool false) show [] [] [] [] [].

(** The same, configured with [inventory_hostname: uuid]. *)
Definition by_uuid : plugin :=
  configured [("inventory_hostname", YStr "uuid")] (YBool false).

(** Three instances with three names; the last one is unreachable. *)
Definition distinct_names : list server :=
  [bare "1" "a" (Some "10.0.0.1"); bare "2" "b" (Some "10.0.0.2");
   bare "3" "c" None].

(** A collaborator of [Constructable] that leaves one visible call per
    host: it makes the host a child of the group [label]. *)
Definition tagging (label : string)
  : yaml -> host_entry -> string -> sink -> result unit * sink :=
  fun _ _ host k => (Ok tt, (k ++ [AddChild label host])%list).



(** A plugin configuration that asks to fail on errors. *)
Definition strict_file : config :=
  [("plugin", YStr "openstack-inventory"); ("fail_on_errors", YBool true)].

(** An SDK that finds two clouds, the second of which cannot be reached:
    [list_hosts] raises when asked to fail on errors, and lists the hosts
    of the first cloud otherwise. *)
Definition two_clouds : list yaml -> yaml -> result (list cloud) :=
  fun _ _ => Ok [mkCloud "a"; mkCloud "b"].

Definition list_reachable : os_inventory -> yaml -> yaml -> result (list server) :=
  fun _ _ fail =>
    if yaml_truthy fail
    then Raise (CollaboratorError "cloud b is unreachable")
    else Ok [web01].

(** A plugin configuration with defaults only. *)
Definition plain_file : config := [("plugin", YStr "openstack-inventory")].

(** A plugin object that has loaded [plain_file]. *)
Definition loaded_plain : plugin :=
  set_flags (YBool false) (YBool false) (YBool false)
            (set_config_data plain_file fresh_plugin).

End Sample.

(** ** The class [InventoryModule] *)

Section InventoryModule.

(** *** Collaborators

    The framework and the SDK are outside the repository; the class only
    sees them through these operations. *)

(** [BaseInventoryPlugin.verify_file]: the path exists and is readable. *)
Variable base_verify_file : string -> bool.

(** [self._read_config_data(path)] *)
Variable read_config_data : string -> result config.

(** [self._get_cache_prefix(path)] *)
Variable get_cache_prefix : string -> string.

(** [client_config.CONFIG_FILES] *)
Variable CONFIG_FILES : list string.

(** [sdk_inventory.OpenStackInventory(config_files=..., private=...)]:
    the cloud accounts found in the configuration files. *)
Variable sdk_discover_clouds : list yaml -> yaml -> result (list cloud).

(** [os_clouds_inventory.list_hosts(expand=..., fail_on_cloud_config=...)] *)
Variable sdk_list_hosts : os_inventory -> yaml -> yaml -> result (list server).

(** [Constructable._set_composite_vars(compose, variables, host)] *)
Variable set_composite_vars :
  yaml -> host_entry -> string -> sink -> result unit * sink.

(** [Constructable._add_host_to_composed_groups(groups, variables, host)] *)
Variable add_host_to_composed_groups :
  yaml -> host_entry -> string -> sink -> result unit * sink.

(** [Constructable._add_host_to_keyed_groups(keys, variables, host)] *)
Variable add_host_to_keyed_groups :
  yaml -> host_entry -> string -> sink -> result unit * sink.

(** The group handle returned by [self.inventory.add_group(name)]. *)
Variable add_group_handle : string -> string.

(** *** Configuration, lines 172-242 *)

(** [value and not isinstance(value, T)] *)
Definition wrong_type (value : yaml) (isinstance_T : yaml -> bool) : bool :=
  yaml_truthy value && negb (isinstance_T value).

Definition _verify_config_data_types (data : config) : bool :=
  if wrong_type (cfg_get data "clouds_yaml_path") is_list then false
  else if wrong_type (cfg_get data "debug") is_bool then false
  else if wrong_type (cfg_get data "expand_hostvars") is_bool then false
  else if wrong_type (cfg_get data "fail_on_errors") is_bool then false
  else if wrong_type (cfg_get data "only_clouds") is_list then false
  else if wrong_type (cfg_get data "show_all") is_bool then false
  else true.

(** The [if]/[elif] chain of [_verify_config_data]: the error it selects,
    if any. *)
Definition config_data_error (data : config) : option config_error :=
  if negb (match data with [] => false | _ :: _ => true end)
  then Some ConfigFileIsEmpty
  else if PyDict.contains data "plugin"
          && negb (yaml_eq_str (cfg_get data "plugin") NAME)
  then Some (IncorrectPluginConfig (cfg_get data "plugin"))
  else if negb (PyDict.contains data "plugin")
          && negb (PyDict.contains data "clouds")
  then Some MissingPluginAndClouds
  else if negb (_verify_config_data_types data)
  then Some InvalidConfigDataType
  else None.

Definition _verify_config_data (data : config) : M unit :=
  match config_data_error data with
  | Some error_msg => raise (AnsibleParserError error_msg)
  | None => ret tt
  end.

(** Lines 172-191.  The messages sent to [display] and the call of
    [sdk.enable_logging] only write to the log and are left out. *)
Definition _load_and_verify_plugin_config (path : string) : M unit :=
  match read_config_data path with
  | Raise e => raise e
  | Ok data =>
      modify (set_config_data data) ;;;
      _verify_config_data data ;;;
      (if PyDict.contains data "clouds"
       then modify (set_config_data [])
       else ret tt) ;;;
      cfg <- gets _config_data ;;
      modify (set_flags (cfg_get_default cfg "expand_hostvars" (YBool false))
                        (cfg_get_default cfg "fail_on_errors" (YBool false))
                        (cfg_get_default cfg "show_all" (YBool false)))
  end.

(** *** Cache and host enumeration, lines 244-306 *)

Definition _load_cache (cache_key : string) : M (option (list server)) :=
  c <- gets _cache ;;
  ret (PyDict.get c cache_key).

Definition _get_openstack_config_files_list : M (list yaml) :=
  cfg <- gets _config_data ;;
  let clouds_yaml_path := cfg_get cfg "clouds_yaml_path" in
  if yaml_truthy clouds_yaml_path then
    match clouds_yaml_path with
    | YList l => ret (l ++ map YStr CONFIG_FILES)%list
    | _ => raise TypeError
    end
  else ret (map YStr CONFIG_FILES).

(** [self.only_clouds].  The class never assigns this attribute: the
    option is only read into the local variable [only_clouds] (line 285),
    and the base classes [BaseInventoryPlugin], [Constructable] and
    [Cacheable] define no attribute of that name.  The read of line 298
    therefore raises. *)
Definition self_only_clouds : M yaml := raise (AttributeError "only_clouds").

(** [name in container] for a YAML list of names. *)
Definition yaml_contains_str (container : yaml) (name : string) : bool :=
  match container with
  | YList l => existsb (fun v => yaml_eq_str v name) l
  | _ => false
  end.

(** The loop of lines 296-300, with [selected_openstack_clouds] as the
    accumulator. *)
Fixpoint select_clouds (discovered selected : list cloud) : M (list cloud) :=
  match discovered with
  | [] => ret selected
  | c :: r =>
      wanted <- self_only_clouds ;;
      if yaml_contains_str wanted (cloud_name c)
      then select_clouds r (selected ++ [c])%list
      else select_clouds r selected
  end.

Definition _get_openstack_clouds_inventory
    (os_config_files_list : list yaml) : M os_inventory :=
  cfg <- gets _config_data ;;
  let only_clouds := cfg_get cfg "only_clouds" in
  let private := cfg_get_default cfg "private" (YBool false) in
  match sdk_discover_clouds os_config_files_list private with
  | Raise e => raise e
  | Ok discovered =>
      if yaml_truthy only_clouds then
        selected_openstack_clouds <- select_clouds discovered [] ;;
        ret (mkOsInventory os_config_files_list private
                           selected_openstack_clouds)
      else ret (mkOsInventory os_config_files_list private discovered)
  end.

(** The [try]/[except]/[finally] of lines 263-273.  The [return] of the
    [finally] clause ends the method with the current [hosts_data]
    whatever happened before it, so an exception of [list_hosts] (or one
    raised while it is being logged) leaves the initial empty list. *)
Definition _get_hosts_data_from_openstack : M (list server) :=
  files <- _get_openstack_config_files_list ;;
  os_clouds_inventory <- _get_openstack_clouds_inventory files ;;
  expand <- gets expand_hostvars ;;
  fail_on_cloud_config <- gets fail_on_errors ;;
  let hosts_data := [] in
  match sdk_list_hosts os_clouds_inventory expand fail_on_cloud_config with
  | Ok listed => ret listed
  | Raise _ => ret hosts_data
  end.

(** *** Inventory building, lines 308-434 *)

Definition _store_host_data
    (host : string) (server_data : server) (namegroup : bool) : M unit :=
  match sv_interface_ip server_data with
  | None => raise (KeyError "interface_ip")
  | Some interface_ip =>
      modify (fun st =>
                set_hostvars
                  (PyDict.set (hostvars st) host
                              (mkEntry interface_ip interface_ip server_data))
                  st) ;;;
      emit (AddHost host) ;;;
      for_each (_get_group_names_from_server_data server_data namegroup)
               (fun group =>
                  modify (fun st =>
                            set_groups
                              (PyDict.append_to (groups st) group host) st))
  end.

(** [set(server["id"] for server in server_data)], as the list of its
    elements. *)
Definition server_ids (server_data : list server) : list string :=
  nodup string_dec (map sv_id server_data).

(** [server_data[0]] *)
Definition first_server (server_data : list server) : M server :=
  match server_data with
  | s :: _ => ret s
  | [] => raise IndexError
  end.

(** The body of the loop over [self.servers.items()], lines 331-342. *)
Definition store_name_partition
    (use_server_id : bool) (name : string) (server_data : list server)
    : M unit :=
  if (List.length server_data =? 1)%nat && negb use_server_id then
    s0 <- first_server server_data ;;
    _store_host_data name s0 false
  else
    if (List.length (server_ids server_data) =? 1)%nat && negb use_server_id then
      s0 <- first_server server_data ;;
      _store_host_data name s0 false
    else
      for_each server_data
               (fun data => _store_host_data (sv_id data) data true).

(** The body of the first loop, lines 325-327. *)
Definition collect_server (s : server) : M unit :=
  show <- gets show_all ;;
  if negb (has_interface_ip s) && negb (yaml_truthy show) then ret tt
  else modify (fun st =>
                 set_servers (PyDict.append_to (servers st) (sv_name s) s) st).

(** The dictionary [self.servers] after the first loop has run over the
    records [kept] that pass its test, starting from [d]. *)
Definition group_by_name (kept : list server) (d : PyDict.t (list server))
  : PyDict.t (list server) :=
  fold_left (fun d s => PyDict.append_to d (sv_name s) s) kept d.

Definition _populate_inventory_hosts (hosts_data : list server) : M unit :=
  cfg <- gets _config_data ;;
  let use_server_id :=
    negb (yaml_eq_str
            (cfg_get_default cfg "inventory_hostname" (YStr "name")) "name") in
  for_each hosts_data collect_server ;;;
  by_name <- gets servers ;;
  for_each by_name
           (fun item => store_name_partition use_server_id (fst item) (snd item)).

(** [self.hostvars[host]] *)
Definition hostvars_at (host : string) : M host_entry :=
  hv <- gets hostvars ;;
  match PyDict.get hv host with
  | Some e => ret e
  | None => raise (KeyError host)
  end.

(** The value of a loop variable after [for x in l: ...]: the last
    element of [l], or nothing when the loop never ran. *)
Fixpoint after_loop {A} (l : list A) : option A :=
  match l with
  | [] => None
  | [x] => Some x
  | _ :: r => after_loop r
  end.

(** Lines 411-419.  The second loop is not nested in the first: it runs
    once, with the [host] left over by the first loop. *)
Definition _populate_inventory_variables : M unit :=
  hv <- gets hostvars ;;
  for_each (PyDict.keys hv)
           (fun host =>
              cfg <- gets _config_data ;;
              e <- hostvars_at host ;;
              on_sink (set_composite_vars (cfg_get cfg "compose") e host)) ;;;
  match after_loop (PyDict.keys hv) with
  | None => raise (UnboundLocalError "host")
  | Some host =>
      e <- hostvars_at host ;;
      for_each (entry_items e)
               (fun item => emit (SetVariable host (fst item) (snd item)))
  end.

Definition _populate_inventory_groups : M unit :=
  hv <- gets hostvars ;;
  for_each (PyDict.keys hv)
           (fun host =>
              cfg <- gets _config_data ;;
              e <- hostvars_at host ;;
              on_sink (add_host_to_composed_groups (cfg_get cfg "groups") e host) ;;;
              e <- hostvars_at host ;;
              on_sink (add_host_to_keyed_groups (cfg_get cfg "keyed_groups") e host)) ;;;
  gs <- gets groups ;;
  for_each gs
           (fun item =>
              emit (AddGroup (fst item)) ;;;
              let group := add_group_handle (fst item) in
              for_each (snd item) (fun host => emit (AddChild group host))).

Definition _populate_inventory (hosts_data : list server) : M unit :=
  modify (set_servers []) ;;;
  modify (set_groups []) ;;;
  modify (set_hostvars []) ;;;
  _populate_inventory_hosts hosts_data ;;;
  _populate_inventory_variables ;;;
  _populate_inventory_groups.

(** [not hosts_data] for the optional list of [parse]. *)
Definition no_hosts_data (hosts_data : option (list server)) : bool :=
  match hosts_data with
  | None => true
  | Some [] => true
  | Some (_ :: _) => false
  end.

(** Lines 154-170, after the call of the base class's [parse], which only
    records [inventory], [loader] and [path] on [self]. *)
Definition parse (path : string) (cache : bool) : M unit :=
  _load_and_verify_plugin_config path ;;;
  let cache_key := get_cache_prefix path in
  hosts_data <- (if cache then _load_cache cache_key else ret None) ;;
  hosts_data <-
    (if no_hosts_data hosts_data then
       fetched <- _get_hosts_data_from_openstack ;;
       modify (fun st => set_cache (PyDict.set (_cache st) cache_key fetched) st) ;;;
       ret fetched
     else ret (match hosts_data with Some l => l | None => [] end)) ;;
  _populate_inventory hosts_data.

(** *** Configuration file names, lines 436-444 *)

Definition verify_file (path : string) : bool :=
  if base_verify_file path then
    existsb
      (fun fn =>
         existsb
           (fun suffix => PyStr.endswith path (fn ++ "." ++ suffix))
           ["yaml"; "yml"])
      ["openstack"; "clouds"]
  else false.

(** A method that leaves [self._cache] as it found it, whether it returns
    or raises. *)
Definition keeps_cache {A} (m : M A) : Prop :=
  forall st, _cache (snd (m st)) = _cache st.

(** The hosts announced to the inventory are the keys of the host table;
    every entry carries the [interface_ip] of its record in both address
    variables; every member of a group is a key of the host table. *)
Definition consistent_tables (st : plugin) : Prop :=
  (forall h,
      In (AddHost h) (inventory st) <-> PyDict.contains (hostvars st) h = true) /\
  (forall h e,
      In (h, e) (hostvars st) ->
      ansible_ssh_host e = ansible_host e /\
      sv_interface_ip (openstack e) = Some (ansible_host e)) /\
  (forall g members h,
      In (g, members) (groups st) -> In h members ->
      PyDict.contains (hostvars st) h = true).

(** One call of [_store_host_data]: the host identifier, the record and
    the [namegroup] flag. *)
Definition store_call : Type := (string * server * bool)%type.

Definition call_host (c : store_call) : string := fst (fst c).

Definition call_record (c : store_call) : server := snd (fst c).

Definition call_namegroup (c : store_call) : bool := snd c.

Definition run_call (c : store_call) : M unit :=
  _store_host_data (call_host c) (call_record c) (call_namegroup c).

(** The calls of [_store_host_data] made by one iteration of the loop of
    lines 330-342, in order. *)
Definition partition_calls
    (use_server_id : bool) (name : string) (server_data : list server)
    : list store_call :=
  match server_data with
  | [] => []
  | s0 :: _ =>
      if (List.length server_data =? 1)%nat && negb use_server_id
      then [(name, s0, false)]
      else if (List.length (server_ids server_data) =? 1)%nat
              && negb use_server_id
      then [(name, s0, false)]
      else map (fun data => (sv_id data, data, true)) server_data
  end.

(** The calls made by the whole loop over [self.servers.items()]. *)
Definition resolved_calls
    (use_server_id : bool) (by_name : PyDict.t (list server)) : list store_call :=
  flat_map (fun item => partition_calls use_server_id (fst item) (snd item))
           by_name.

(** The group table after the hosts of [calls] have joined the groups
    derived for their records. *)
Definition joined_groups
    (calls : list store_call) (d : PyDict.t (list string))
    : PyDict.t (list string) :=
  fold_left
    (fun d c =>
       fold_left (fun d g => PyDict.append_to d g (call_host c))
                 (_get_group_names_from_server_data (call_record c)
                                                    (call_namegroup c))
                 d)
    calls d.

(** The inventory calls after the loop of lines 413-416 has returned: the
    composite variables of every host of the table have been handed to
    the collaborator, in table order. *)
Definition delegated_variable_calls (st : plugin) : sink :=
  fold_left
    (fun k host =>
       match PyDict.get (hostvars st) host with
       | Some e =>
           snd (set_composite_vars (cfg_get (_config_data st) "compose") e host k)
       | None => k
       end)
    (PyDict.keys (hostvars st)) (inventory st).

(** The inventory calls after the loop of lines 423-429 has returned: for
    every host of the table, in table order, the composed groups and then
    the keyed groups have been handed to the collaborator. *)
Definition delegated_group_calls (st : plugin) : sink :=
  fold_left
    (fun k host =>
       match PyDict.get (hostvars st) host with
       | Some e =>
           snd (add_host_to_keyed_groups
                  (cfg_get (_config_data st) "keyed_groups") e host
                  (snd (add_host_to_composed_groups
                          (cfg_get (_config_data st) "groups") e host k)))
       | None => k
       end)
    (PyDict.keys (hostvars st)) (inventory st).

(** The bodies of the loops of lines 413-416 and 423-429. *)
Definition variable_loop_body (host : string) : M unit :=
  cfg <- gets _config_data ;;
  e <- hostvars_at host ;;
  on_sink (set_composite_vars (cfg_get cfg "compose") e host).

Definition group_loop_body (host : string) : M unit :=
  cfg <- gets _config_data ;;
  e <- hostvars_at host ;;
  on_sink (add_host_to_composed_groups (cfg_get cfg "groups") e host) ;;;
  e <- hostvars_at host ;;
  on_sink (add_host_to_keyed_groups (cfg_get cfg "keyed_groups") e host).

(** A method that acts on the inventory sink only. *)
Definition only_sink {A} (m : M A) : Prop :=
  forall st, snd (m st) = set_inventory (inventory (snd (m st))) st.

(** The calls that hand the group table over to the inventory: every
    group is declared, then its members are attached, in table order. *)
Definition flush_calls (gs : PyDict.t (list string)) : list sink_call :=
  flat_map
    (fun item =>
       AddGroup (fst item)
       :: map (AddChild (add_group_handle (fst item))) (snd item))
    gs.

(** The options that [_verify_config_data_types] looks at. *)
Definition typed_options : list string :=
  ["clouds_yaml_path"; "debug"; "expand_hostvars"; "fail_on_errors";
   "only_clouds"; "show_all"].

(** The host table and the group table only hold records of [hosts_data]
    that have an [interface_ip], and every member of a group is a host of
    the host table. *)
Definition reachable_tables (hosts_data : list server) (st : plugin) : Prop :=
  (forall h e,
      In (h, e) (hostvars st) ->
      In (openstack e) hosts_data /\ has_interface_ip (openstack e) = true) /\
  (forall g members h,
      In (g, members) (groups st) -> In h members ->
      PyDict.contains (hostvars st) h = true).

(** ** Properties *)

(** Collaborators of a function type read as implications to the
    propositional solvers; a proof that does not speak of them starts by
    forgetting them. *)
Ltac forget_collaborators :=
  try clear base_verify_file; try clear read_config_data;
  try clear get_cache_prefix; try clear add_group_handle;
  try clear set_composite_vars; try clear add_host_to_composed_groups;
  try clear add_host_to_keyed_groups; try clear sdk_list_hosts;
  try clear sdk_discover_clouds; try clear CONFIG_FILES.

(** *** Strings *)

Lemma endswith_iff (s suffix : string) :
  PyStr.endswith s suffix = true <-> exists prefix, s = prefix ++ suffix.
Proof.
  forget_collaborators.
  split.
  - induction s as [|c r IH]; cbn [PyStr.endswith].
    + destruct suffix; [now exists ""|discriminate].
    + destruct (String.eqb_spec (String c r) suffix) as [E|E].
      * intros _. exists "". now subst.
      * intros H. destruct (IH H) as [p Hp]. exists (String c p).
        simpl. now rewrite Hp.
  - intros [p Hp]. subst s. induction p as [|c p IH].
    + change ("" ++ suffix) with suffix.
      destruct suffix; cbn [PyStr.endswith]; now rewrite String.eqb_refl.
    + change (String c p ++ suffix) with (String c (p ++ suffix)).
      cbn [PyStr.endswith]. rewrite IH. now destruct (String.eqb _ _).
Qed.

Lemma file_name_is_suffix (path : string) :
  exists prefix, path = prefix ++ file_name path.
Proof.
  forget_collaborators.
  induction path as [|c r [p Hp]]; simpl.
  - now exists "".
  - destruct (Ascii.eqb c "/").
    + exists (String c p). simpl. now rewrite <- Hp.
    + destruct (has_slash r).
      * exists (String c p). simpl. now rewrite <- Hp.
      * now exists "".
Qed.

(** The direction of the specification's sentence that does hold: a
    readable file whose name is one of the four is accepted. *)
Lemma verify_file_of_file_name (path : string) :
  base_verify_file path = true ->
  spec_accepts_file path = true ->
  verify_file path = true.
Proof.
  forget_collaborators.
  intros Hb Hs. unfold verify_file. rewrite Hb.
  destruct (file_name_is_suffix path) as [p Hp].
  unfold spec_accepts_file, config_file_names in Hs. cbn [existsb] in Hs.
  assert (E : forall n, file_name path = n -> PyStr.endswith path n = true).
  { intros n Hn. apply endswith_iff. exists p. now rewrite <- Hn. }
  simpl. rewrite !orb_false_r in *.
  repeat match type of Hs with
         | (_ || _)%bool = true => apply orb_true_iff in Hs; destruct Hs as [Hs|Hs]
         end;
    apply String.eqb_eq in Hs; rewrite (E _ Hs);
    rewrite ?orb_true_r; reflexivity.
Qed.

(** C9 (as amended).  [verify_file] accepts a path exactly when the
    framework's own check accepts it and the path, as a string, ends with
    one of [openstack.yml], [openstack.yaml], [clouds.yml], [clouds.yaml]:
    the test is a suffix test on the whole path, not an equality on the
    file name. *)
Theorem verify_file_accepts_suffix (path : string) :
  verify_file path = true <->
  base_verify_file path = true /\
  exists prefix name, In name config_file_names /\ path = prefix ++ name.
Proof.
  forget_collaborators.
  unfold verify_file, config_file_names. split.
  - destruct (base_verify_file path); [|discriminate].
    simpl. rewrite !orb_false_r. intros H. split; [reflexivity|].
    repeat match type of H with
           | (_ || _)%bool = true => apply orb_true_iff in H; destruct H as [H|H]
           end;
      apply endswith_iff in H; destruct H as [p Hp]; exists p;
      eexists; (split; [|exact Hp]); simpl; tauto.
  - intros [Hb (p & n & Hn & Hp)]. rewrite Hb. simpl. rewrite !orb_false_r.
    assert (E : PyStr.endswith path n = true) by (apply endswith_iff; now exists p).
    simpl in Hn.
    destruct Hn as [Hn|[Hn|[Hn|[Hn|[]]]]]; subst n; rewrite E;
      rewrite ?orb_true_r; reflexivity.
Qed.

(** *** Group names *)

Lemma group_names_parts (s : server) (namegroup : bool) :
  _get_group_names_from_server_data s namegroup =
  let metadata := match sv_metadata s with Some m => m | None => [] end in
  ([sv_cloud s]
   ++ (if PyStr.truthy (sv_region s) then [sv_region s] else [])
   ++ [PyStr.fmt_underscore (sv_cloud s) (sv_region s)]
   ++ (match PyDict.get metadata "group" with Some g => [g] | None => [] end)
   ++ extra_groups metadata
   ++ [("instance-" ++ sv_id s)%string]
   ++ (if namegroup then [sv_name s] else [])
   ++ flavor_image_groups s
   ++ meta_groups metadata
   ++ az_groups s)%list.
Proof.
  forget_collaborators.
  unfold _get_group_names_from_server_data. cbv zeta.
  destruct (PyStr.truthy (sv_region s)), namegroup,
    (PyDict.get match sv_metadata s with Some m => m | None => [] end "group");
    rewrite <- ?app_assoc; reflexivity.
Qed.

(** C3.  A record whose metadata is [{"group": "web", "groups": "a, b"}]
    (whichever key was inserted first) is in the groups ["web"], ["a"],
    ["b"], ["meta-group_web"] and ["meta-groups_a, b"]. *)
Theorem metadata_group_and_groups
    (s : server) (namegroup : bool) (metadata : PyDict.t string) :
  sv_metadata s = Some metadata ->
  metadata = [("group", "web"); ("groups", "a, b")] \/
  metadata = [("groups", "a, b"); ("group", "web")] ->
  let server_groups := _get_group_names_from_server_data s namegroup in
  In "web" server_groups /\ In "a" server_groups /\ In "b" server_groups /\
  In "meta-group_web" server_groups /\ In "meta-groups_a, b" server_groups.
Proof.
  forget_collaborators.
  intros Hm Hmd server_groups. subst server_groups.
  rewrite group_names_parts, Hm. cbv zeta.
  assert (Hg : PyDict.get metadata "group" = Some "web")
    by (destruct Hmd; subst; reflexivity).
  assert (He : extra_groups metadata = ["a"; "b"])
    by (destruct Hmd; subst; reflexivity).
  assert (Hs : In "meta-group_web" (meta_groups metadata) /\
               In "meta-groups_a, b" (meta_groups metadata))
    by (destruct Hmd; subst; simpl; tauto).
  rewrite Hg, He. destruct Hs as [Hs1 Hs2].
  repeat split; rewrite !in_app_iff; simpl; tauto.
Qed.

(** What the rule of lines 382-384 adds: the stripped form of every
    non-empty piece of the ["groups"] value. *)
Lemma extra_groups_spec (metadata : PyDict.t string) (g : string) :
  In g (extra_groups metadata) <->
  exists piece,
    In piece (PyStr.split ","
                (match PyDict.get metadata "groups" with
                 | Some v => v
                 | None => ""
                 end)) /\
    piece <> "" /\ g = PyStr.strip piece.
Proof.
  forget_collaborators.
  unfold extra_groups. rewrite in_flat_map. split.
  - intros (piece & Hin & Hg). exists piece. split; [exact Hin|].
    destruct piece; [destruct Hg|]. destruct Hg as [<-|[]].
    split; [discriminate | reflexivity].
  - intros (piece & Hin & Hne & ->). exists piece. split; [exact Hin|].
    destruct piece; [now elim Hne | now left].
Qed.

(** C4, at the failing input.  The value ["a, ,b"] has a piece made of one
    space: it passes the emptiness test of line 383 and is stripped
    afterwards, so the empty string becomes a group name. *)
Theorem blank_piece_yields_empty_group :
  extra_groups [("groups", "a, ,b")] = ["a"; ""; "b"] /\
  In "" (_get_group_names_from_server_data Sample.blank_piece false).
Proof. forget_collaborators. split; [reflexivity | simpl; tauto]. Qed.

(** *** Configuration *)




(** *** Inventory building *)

(** With an empty host table, [host] is never bound by the first loop of
    [_populate_inventory_variables]. *)
Lemma populate_inventory_without_hosts (st : plugin) :
  _populate_inventory [] st =
  (Raise (UnboundLocalError "host"),
   set_hostvars [] (set_groups [] (set_servers [] st))).
Proof. forget_collaborators. reflexivity. Qed.

(** C5, at the failing input.  With no record at all, host resolution
    itself returns with empty tables, but the first loop of
    [_populate_inventory_variables] never binds [host], and the second
    loop, which is not nested in it, reads it: the pass raises. *)
Theorem populate_inventory_empty_raises (st : plugin) :
  _populate_inventory_hosts [] (set_hostvars [] (set_groups [] (set_servers [] st)))
  = (Ok tt, set_hostvars [] (set_groups [] (set_servers [] st))) /\
  _populate_inventory_variables
    (set_hostvars [] (set_groups [] (set_servers [] st)))
  = (Raise (UnboundLocalError "host"),
     set_hostvars [] (set_groups [] (set_servers [] st))) /\
  _populate_inventory [] st =
  (Raise (UnboundLocalError "host"),
   set_hostvars [] (set_groups [] (set_servers [] st))).
Proof. forget_collaborators. repeat split. Qed.

(** C6, at the failing input.  With [show_all] set, a record without
    [interface_ip] is kept by the first loop and then stored, and
    [_store_host_data] reads [server_data["interface_ip"]]. *)
Theorem show_all_unreachable_server_raises
    (id name cloud region : string) (az : option string)
    (flavor image : PyDict.t string) (metadata : option (PyDict.t string))
    (cfg : config) :
  let s := mkServer id name cloud region az None flavor image metadata in
  let out := _populate_inventory [s] (Sample.configured cfg (YBool true)) in
  fst out = Raise (KeyError "interface_ip") /\
  servers (snd out) = [(name, [s])] /\
  hostvars (snd out) = [] /\
  inventory (snd out) = [].
Proof.
  forget_collaborators.
  cbv -[yaml_eq_str cfg_get_default].
  destruct (yaml_eq_str (cfg_get_default cfg "inventory_hostname"
                                         (YStr "name")) "name");
    repeat split.
Qed.

(** *** Host enumeration *)

Lemma bind_ok {A B} (m : M A) (k : A -> M B) (st st' : plugin) (a : A) :
  m st = (Ok a, st') -> bind m k st = k a st'.
Proof. forget_collaborators. unfold bind. now intros ->. Qed.

Lemma bind_raise {A B} (m : M A) (k : A -> M B) (st st' : plugin) (e : exn) :
  m st = (Raise e, st') -> bind m k st = (Raise e, st').
Proof. forget_collaborators. unfold bind. now intros ->. Qed.

Lemma config_files_list_reads (st : plugin) :
  snd (_get_openstack_config_files_list st) = st.
Proof.
  forget_collaborators.
  unfold _get_openstack_config_files_list, bind, gets.
  destruct (yaml_truthy _); [|reflexivity].
  now destruct (cfg_get _ _).
Qed.

Lemma select_clouds_reads (discovered selected : list cloud) (st : plugin) :
  snd (select_clouds discovered selected st) = st.
Proof. forget_collaborators. now destruct discovered. Qed.

Lemma clouds_inventory_reads (files : list yaml) (st : plugin) :
  snd (_get_openstack_clouds_inventory files st) = st.
Proof.
  forget_collaborators.
  unfold _get_openstack_clouds_inventory, bind, gets.
  destruct (sdk_discover_clouds _ _) as [discovered|e]; [|reflexivity].
  destruct (yaml_truthy _); [|reflexivity].
  pose proof (select_clouds_reads discovered [] st) as H.
  destruct (select_clouds discovered [] st) as [[sel|e] st']; simpl in *;
    now subst.
Qed.

Lemma load_config_keeps_inventory (path : string) (st : plugin) :
  inventory (snd (_load_and_verify_plugin_config path st)) = inventory st.
Proof.
  forget_collaborators.
  unfold _load_and_verify_plugin_config.
  destruct (read_config_data path) as [data|e]; [|reflexivity].
  unfold bind at 1. cbn [modify]. unfold bind at 1.
  unfold _verify_config_data.
  destruct (config_data_error data); [reflexivity|]. cbn [ret].
  now destruct (PyDict.contains data "clouds").
Qed.

Lemma hosts_data_when_list_hosts_raises
    (st : plugin) (files : list yaml) (inv : os_inventory) (e : exn) :
  fst (_get_openstack_config_files_list st) = Ok files ->
  fst (_get_openstack_clouds_inventory files st) = Ok inv ->
  sdk_list_hosts inv (expand_hostvars st) (fail_on_errors st) = Raise e ->
  _get_hosts_data_from_openstack st = (Ok [], st).
Proof.
  forget_collaborators.
  intros Hf Hi Hl. unfold _get_hosts_data_from_openstack.
  rewrite (bind_ok _ _ st st files)
    by (rewrite (surjective_pairing (_ st)), Hf, config_files_list_reads;
        reflexivity).
  rewrite (bind_ok _ _ st st inv)
    by (rewrite (surjective_pairing (_ files st)), Hi, clouds_inventory_reads;
        reflexivity).
  unfold bind, gets. now rewrite Hl.
Qed.

(** C7.  With [fail_on_errors] set, when [list_hosts] raises, the
    enumeration returns the empty list, nothing that the SDK collected
    survives, and the pass ends with an exception before a single call
    reaches the inventory. *)
Theorem enumeration_failure_yields_no_hosts
    (path : string) (cache : bool) (st st1 : plugin)
    (files : list yaml) (inv : os_inventory) (e : exn) :
  _load_and_verify_plugin_config path st = (Ok tt, st1) ->
  fail_on_errors st1 = YBool true ->
  (if cache
   then no_hosts_data (PyDict.get (_cache st1) (get_cache_prefix path))
   else true) = true ->
  fst (_get_openstack_config_files_list st1) = Ok files ->
  fst (_get_openstack_clouds_inventory files st1) = Ok inv ->
  sdk_list_hosts inv (expand_hostvars st1) (YBool true) = Raise e ->
  _get_hosts_data_from_openstack st1 = (Ok [], st1) /\
  exists e' st',
    parse path cache st = (Raise e', st') /\
    inventory st' = inventory st /\
    hostvars st' = [] /\
    groups st' = [].
Proof.
  forget_collaborators.
  intros Hload Hfail Hcache Hf Hi Hl.
  assert (Hh : _get_hosts_data_from_openstack st1 = (Ok [], st1)).
  { apply hosts_data_when_list_hosts_raises with files inv e; trivial.
    now rewrite Hfail. }
  split; [exact Hh|].
  pose proof (load_config_keeps_inventory path st) as Hinv.
  rewrite Hload in Hinv. cbn [snd] in Hinv.
  unfold parse. rewrite (bind_ok _ _ _ _ _ Hload).
  set (key := get_cache_prefix path) in *.
  assert (Hc : exists o, (if cache then _load_cache key else ret None) st1
                         = (Ok o, st1) /\ no_hosts_data o = true).
  { destruct cache; [|now exists None].
    exists (PyDict.get (_cache st1) key). now split. }
  destruct Hc as (o & Hc1 & Hc2).
  rewrite (bind_ok _ _ _ _ _ Hc1), Hc2. cbv iota.
  unfold bind at 1. unfold bind at 1. rewrite Hh.
  cbv [bind modify ret]. rewrite populate_inventory_without_hosts.
  do 2 eexists. split; [reflexivity|]. now repeat split.
Qed.

(** *** Dictionaries *)

Lemma get_append_to {X} (d : PyDict.t (list X)) (k n : string) (x : X) :
  PyDict.get (PyDict.append_to d k x) n =
  if String.eqb k n
  then Some (match PyDict.get d k with
             | Some l => l ++ [x]
             | None => [x]
             end)%list
  else PyDict.get d n.
Proof.
  forget_collaborators.
  induction d as [|[k' l] d IH]; simpl.
  - now destruct (String.eqb_spec k n).
  - destruct (String.eqb_spec k' k) as [E|E]; simpl.
    + subst k'. now destruct (String.eqb_spec k n).
    + rewrite IH. destruct (String.eqb_spec k' n) as [E'|E'];
        destruct (String.eqb_spec k n); subst; congruence.
Qed.

Lemma keys_append_to {X} (d : PyDict.t (list X)) (k : string) (x : X) :
  PyDict.keys (PyDict.append_to d k x) =
  if PyDict.contains d k then PyDict.keys d else (PyDict.keys d ++ [k])%list.
Proof.
  forget_collaborators.
  unfold PyDict.contains. induction d as [|[k' l] d IH]; simpl; [reflexivity|].
  destruct (String.eqb k' k); simpl; [reflexivity|].
  rewrite IH. now destruct (PyDict.get d k).
Qed.

Lemma get_none_keys {V} (d : PyDict.t V) (k : string) :
  PyDict.get d k = None -> ~ In k (PyDict.keys d).
Proof.
  forget_collaborators.
  induction d as [|[k' v] d IH]; simpl; [tauto|].
  destruct (String.eqb_spec k' k); [discriminate|].
  intros H [E|Hin]; [congruence | now apply IH].
Qed.

Lemma append_to_NoDup {X} (d : PyDict.t (list X)) (k : string) (x : X) :
  NoDup (PyDict.keys d) -> NoDup (PyDict.keys (PyDict.append_to d k x)).
Proof.
  forget_collaborators.
  intros H. rewrite keys_append_to. unfold PyDict.contains.
  destruct (PyDict.get d k) eqn:E; [exact H|].
  apply NoDup_app; [exact H | repeat constructor; tauto |].
  intros a Ha [E'|[]]. subst a. now apply (get_none_keys d k).
Qed.

Lemma in_get {V} (d : PyDict.t V) (k : string) (v : V) :
  NoDup (PyDict.keys d) -> (In (k, v) d <-> PyDict.get d k = Some v).
Proof.
  forget_collaborators.
  induction d as [|[k' v'] d IH]; simpl.
  - intros _. split; [tauto | discriminate].
  - intros H. inversion H as [|? ? Hn Hd]; subst.
    destruct (String.eqb_spec k' k) as [E|E].
    + subst k'. split.
      * intros [E|Hin]; [congruence|].
        exfalso. apply Hn. now apply (in_map fst) in Hin.
      * intros E. left. congruence.
    + rewrite <- (IH Hd). split; [|tauto].
      intros [E'|Hin]; [congruence | exact Hin].
Qed.

Lemma in_append_to {X} (d : PyDict.t (list X)) (k g : string) (x : X)
      (members : list X) :
  In (g, members) (PyDict.append_to d k x) ->
  In (g, members) d \/
  (g = k /\ exists before,
      members = (before ++ [x])%list /\ (before = [] \/ In (k, before) d)).
Proof.
  forget_collaborators.
  induction d as [|[k' l] d IH]; simpl.
  - intros [E|[]]. inversion E; subst. right. split; [reflexivity|].
    exists []. tauto.
  - destruct (String.eqb_spec k' k) as [E|E]; simpl.
    + subst k'. intros [E|Hin]; [|tauto]. inversion E; subst.
      right. split; [reflexivity|]. exists l. tauto.
    + intros [E'|Hin]; [tauto|].
      destruct (IH Hin) as [H|(-> & before & -> & H)]; [tauto|].
      right. split; [reflexivity|]. exists before. tauto.
Qed.

Lemma in_set {V} (d : PyDict.t V) (k k' : string) (v v' : V) :
  In (k', v') (PyDict.set d k v) -> (k' = k /\ v' = v) \/ In (k', v') d.
Proof.
  forget_collaborators.
  induction d as [|[k0 v0] d IH]; simpl.
  - intros [E|[]]. inversion E. tauto.
  - destruct (String.eqb_spec k0 k) as [E|E]; simpl.
    + intros [E'|Hin]; [inversion E'; subst; tauto | tauto].
    + intros [E'|Hin]; [tauto|]. destruct (IH Hin); tauto.
Qed.

Lemma contains_set {V} (d : PyDict.t V) (k h : string) (v : V) :
  PyDict.contains (PyDict.set d k v) h =
  (String.eqb k h || PyDict.contains d h)%bool.
Proof.
  forget_collaborators.
  unfold PyDict.contains. induction d as [|[k0 v0] d IH]; simpl.
  - now destruct (String.eqb k h).
  - destruct (String.eqb_spec k0 k) as [E|E]; simpl.
    + subst k0. now destruct (String.eqb k h).
    + destruct (String.eqb_spec k0 h) as [E'|E']; [|exact IH].
      now rewrite orb_true_r.
Qed.

(** *** The first loop of [_populate_inventory_hosts] *)

Lemma set_servers_same (st : plugin) : set_servers (servers st) st = st.
Proof. forget_collaborators. now destruct st. Qed.

Lemma collect_spec (hosts_data : list server) (st : plugin) :
  for_each hosts_data collect_server st =
  (Ok tt,
   set_servers (group_by_name (retained (show_all st) hosts_data) (servers st)) st).
Proof.
  forget_collaborators.
  revert st. induction hosts_data as [|s r IH]; intros st.
  - cbn. now rewrite set_servers_same.
  - cbn [for_each]. unfold bind at 1. unfold collect_server at 1.
    unfold bind, gets. cbn [retained filter].
    rewrite <- negb_orb.
    destruct (has_interface_ip s || yaml_truthy (show_all st))%bool eqn:E;
      cbn [negb ret modify].
    + rewrite IH. reflexivity.
    + rewrite IH. reflexivity.
Qed.

Lemma get_group_by_name (kept : list server) (d : PyDict.t (list server))
      (name : string) :
  PyDict.get (group_by_name kept d) name =
  match PyDict.get d name, name_partition name kept with
  | Some p, f => Some (p ++ f)%list
  | None, [] => None
  | None, f => Some f
  end.
Proof.
  forget_collaborators.
  revert d. induction kept as [|s r IH]; intros d.
  - cbn. destruct (PyDict.get d name); [now rewrite app_nil_r | reflexivity].
  - cbn [group_by_name fold_left]. fold (group_by_name r).
    rewrite IH, get_append_to. unfold name_partition. cbn [filter].
    change (named name s) with (String.eqb (sv_name s) name).
    destruct (String.eqb_spec (sv_name s) name) as [E|E].
    + rewrite E. destruct (PyDict.get d name).
      * now rewrite <- app_assoc.
      * reflexivity.
    + reflexivity.
Qed.

Lemma group_by_name_NoDup (kept : list server) (d : PyDict.t (list server)) :
  NoDup (PyDict.keys d) -> NoDup (PyDict.keys (group_by_name kept d)).
Proof.
  forget_collaborators.
  revert d. induction kept as [|s r IH]; intros d H; [exact H|].
  apply IH. now apply append_to_NoDup.
Qed.

Lemma in_group_by_name (kept : list server) (name : string) (part : list server) :
  In (name, part) (group_by_name kept []) <->
  part = name_partition name kept /\ part <> [].
Proof.
  forget_collaborators.
  rewrite in_get by (apply group_by_name_NoDup; constructor).
  rewrite get_group_by_name. cbn [PyDict.get].
  destruct (name_partition name kept) as [|x f]; split.
  - discriminate.
  - intros [E H]. elim H. exact E.
  - intros E. inversion E. split; [reflexivity | discriminate].
  - intros [E _]. rewrite E. reflexivity.
Qed.

(** *** The second loop: one name partition *)

Lemma nodup_same (l : list string) (x : string) :
  l <> [] -> (forall y, In y l -> y = x) -> nodup string_dec l = [x].
Proof.
  forget_collaborators.
  induction l as [|a l IH]; [now intros H | intros _ Hall].
  assert (a = x) by (apply Hall; now left). subst a.
  destruct l as [|b l]; [reflexivity|].
  assert (Hl : nodup string_dec (b :: l) = [x]).
  { apply IH; [discriminate|]. intros y Hy. apply Hall. now right. }
  cbn [nodup]. destruct (in_dec string_dec x (b :: l)) as [Hin|Hn]; [exact Hl|].
  elim Hn. left. apply Hall. right. now left.
Qed.

Lemma nodup_length_one (l : list string) (a b : string) :
  List.length (nodup string_dec l) = 1 -> In a l -> In b l -> a = b.
Proof.
  forget_collaborators.
  intros Hlen Ha Hb.
  destruct (nodup string_dec l) as [|x [|y t]] eqn:E; try discriminate.
  apply (nodup_In string_dec) in Ha, Hb. rewrite E in Ha, Hb.
  destruct Ha as [<-|[]], Hb as [<-|[]]. reflexivity.
Qed.

Lemma partition_same_id (name : string) (part : list server) (st : plugin) :
  part <> [] ->
  (forall a b, In a part -> In b part -> sv_id a = sv_id b) ->
  exists first,
    hd_error part = Some first /\
    store_name_partition false name part st = _store_host_data name first false st.
Proof.
  forget_collaborators.
  intros Hne Hsame. destruct part as [|first rest]; [now elim Hne|].
  exists first. split; [reflexivity|].
  unfold store_name_partition. cbn [negb]. rewrite !andb_true_r.
  assert (Hids : server_ids (first :: rest) = [sv_id first]).
  { apply nodup_same; [discriminate|].
    intros y Hy. apply in_map_iff in Hy. destruct Hy as (r & <- & Hr).
    apply Hsame; [exact Hr | now left]. }
  rewrite Hids. cbn [List.length Nat.eqb].
  now destruct (List.length rest =? 0)%nat.
Qed.

Lemma partition_distinct_ids (name : string) (part : list server) (st : plugin) :
  (exists a b, In a part /\ In b part /\ sv_id a <> sv_id b) ->
  store_name_partition false name part st =
  for_each part (fun r => _store_host_data (sv_id r) r true) st.
Proof.
  forget_collaborators.
  intros (a & b & Ha & Hb & Hab).
  unfold store_name_partition. cbn [negb]. rewrite !andb_true_r.
  assert (H1 : (List.length part =? 1)%nat = false).
  { apply Nat.eqb_neq. intros H.
    destruct part as [|x [|y t]]; try discriminate.
    destruct Ha as [<-|[]], Hb as [<-|[]]. now elim Hab. }
  assert (H2 : (List.length (server_ids part) =? 1)%nat = false).
  { apply Nat.eqb_neq. intros H. apply Hab.
    apply (nodup_length_one (map sv_id part)); [exact H | |]; now apply in_map. }
  now rewrite H1, H2.
Qed.

(** What the [namegroup] flag adds to the groups of a record: its name,
    and nothing else. *)
Lemma namegroup_adds_name (r : server) :
  exists before after,
    _get_group_names_from_server_data r false = (before ++ after)%list /\
    _get_group_names_from_server_data r true
    = (before ++ [sv_name r] ++ after)%list.
Proof.
  forget_collaborators.
  rewrite !group_names_parts. cbv zeta.
  set (metadata := match sv_metadata r with Some m => m | None => [] end).
  exists ([sv_cloud r]
          ++ (if PyStr.truthy (sv_region r) then [sv_region r] else [])
          ++ [PyStr.fmt_underscore (sv_cloud r) (sv_region r)]
          ++ (match PyDict.get metadata "group" with
              | Some g => [g]
              | None => []
              end)
          ++ extra_groups metadata
          ++ [("instance-" ++ sv_id r)%string])%list,
         (flavor_image_groups r ++ meta_groups metadata ++ az_groups r)%list.
  split; rewrite <- !app_assoc; reflexivity.
Qed.

(** In mode ["name"], starting from the empty [self.servers] of
    [_populate_inventory], the second loop runs once for every partition of
    the retained records that share a name.  For a partition whose records
    all have the same id, it makes a single call of [_store_host_data],
    with the name as host identifier and without name group; for a
    partition with two distinct ids, it calls [_store_host_data] for every
    record, with the record's own id as host identifier and with the name
    group, which adds the record's name to its groups. *)
Lemma name_mode_resolution (hosts_data : list server) (st : plugin) :
  yaml_eq_str (cfg_get_default (_config_data st) "inventory_hostname"
                               (YStr "name")) "name" = true ->
  servers st = [] ->
  let kept := retained (show_all st) hosts_data in
  exists by_name,
    _populate_inventory_hosts hosts_data st =
    for_each by_name
             (fun item => store_name_partition false (fst item) (snd item))
             (set_servers by_name st) /\
    NoDup (PyDict.keys by_name) /\
    (forall name part,
        In (name, part) by_name <->
        part = name_partition name kept /\ part <> []) /\
    (forall name part,
        In (name, part) by_name ->
        forall st',
          ((forall a b, In a part -> In b part -> sv_id a = sv_id b) ->
           exists first,
             hd_error part = Some first /\
             store_name_partition false name part st'
             = _store_host_data name first false st') /\
          ((exists a b, In a part /\ In b part /\ sv_id a <> sv_id b) ->
           store_name_partition false name part st'
           = for_each part (fun r => _store_host_data (sv_id r) r true) st')) /\
    (forall r,
        exists before after,
          _get_group_names_from_server_data r false = (before ++ after)%list /\
          _get_group_names_from_server_data r true
          = (before ++ [sv_name r] ++ after)%list).
Proof.
  forget_collaborators.
  intros Hmode Hempty kept.
  exists (group_by_name kept []). split; [|split; [|split; [|split]]].
  - unfold _populate_inventory_hosts. unfold bind at 1. cbn [gets].
    rewrite Hmode. cbn [negb].
    unfold bind at 1. rewrite collect_spec, Hempty. reflexivity.
  - apply group_by_name_NoDup. constructor.
  - intros name part. apply in_group_by_name.
  - intros name part Hin st'. apply in_group_by_name in Hin.
    destruct Hin as [_ Hne]. split.
    + now apply partition_same_id.
    + apply partition_distinct_ids.
  - apply namegroup_adds_name.
Qed.

(** *** Storing hosts keeps the tables reachable *)

Lemma for_each_invariant {A} (I : plugin -> Prop) (P : A -> Prop)
      (body : A -> M unit) (l : list A) (st : plugin) :
  (forall x st0, P x -> I st0 ->
                 exists st1, body x st0 = (Ok tt, st1) /\ I st1) ->
  (forall x, In x l -> P x) ->
  I st ->
  exists st', for_each l body st = (Ok tt, st') /\ I st'.
Proof.
  forget_collaborators.
  intros Hbody. revert st. induction l as [|x r IH]; intros st HP HI.
  - exists st. now split.
  - destruct (Hbody x st) as (st1 & H1 & HI1); [apply HP; now left | exact HI |].
    destruct (IH st1) as (st' & H' & HI'); [intros y Hy; apply HP; now right | exact HI1 |].
    exists st'. split; [|exact HI'].
    cbn [for_each]. now rewrite (bind_ok _ _ _ _ _ H1).
Qed.

Lemma join_groups_spec (host : string) (names : list string) (st : plugin) :
  for_each names
           (fun group =>
              modify (fun st =>
                        set_groups (PyDict.append_to (groups st) group host) st))
           st
  = (Ok tt,
     set_groups (fold_left (fun d g => PyDict.append_to d g host) names (groups st))
                st).
Proof.
  forget_collaborators.
  revert st. induction names as [|g r IH]; intros st.
  - cbn. now destruct st.
  - cbn [for_each fold_left]. unfold bind, modify at 1. rewrite IH. reflexivity.
Qed.

Lemma joined_members (host : string) (names : list string)
      (d : PyDict.t (list string)) (g h : string) (members : list string) :
  In (g, members) (fold_left (fun d g => PyDict.append_to d g host) names d) ->
  In h members ->
  h = host \/ exists before, In (g, before) d /\ In h before.
Proof.
  forget_collaborators.
  revert d. induction names as [|n r IH]; intros d Hin Hh.
  - right. now exists members.
  - cbn [fold_left] in Hin. destruct (IH _ Hin Hh) as [E|(before & Hb & Hhb)];
      [now left|].
    apply in_append_to in Hb.
    destruct Hb as [Hb|(-> & b0 & -> & Hb0)]; [right; now exists before|].
    apply in_app_iff in Hhb. destruct Hhb as [Hhb|[<-|[]]]; [|now left].
    destruct Hb0 as [->|Hb0]; [now elim Hhb|].
    right. now exists b0.
Qed.

Lemma store_host_data_reachable
      (hosts_data : list server) (host : string) (r : server)
      (namegroup : bool) (st : plugin) :
  In r hosts_data ->
  has_interface_ip r = true ->
  reachable_tables hosts_data st ->
  exists st',
    _store_host_data host r namegroup st = (Ok tt, st') /\
    reachable_tables hosts_data st' /\ servers st' = servers st.
Proof.
  forget_collaborators.
  intros Hr Hip [Hv Hg]. unfold _store_host_data.
  unfold has_interface_ip in Hip.
  destruct (sv_interface_ip r) as [ip|] eqn:Eip; [|discriminate].
  unfold bind at 1. cbn [modify]. unfold bind at 1. cbn [emit modify].
  rewrite join_groups_spec. eexists. split; [reflexivity|].
  split; [|reflexivity]. split; cbn.
  - intros h e Hin. destruct (in_set _ _ _ _ _ Hin) as [[_ ->]|Hin'].
    + cbn. split; [exact Hr|]. unfold has_interface_ip. now rewrite Eip.
    + now apply (Hv h).
  - intros g members h Hin Hh. rewrite contains_set.
    destruct (joined_members _ _ _ _ _ _ Hin Hh) as [->|(before & Hb & Hhb)].
    + now rewrite String.eqb_refl.
    + rewrite (Hg _ _ _ Hb Hhb). apply orb_true_r.
Qed.

Lemma store_name_partition_reachable
      (hosts_data : list server) (use_server_id : bool) (name : string)
      (part : list server) (st : plugin) :
  (forall r, In r part -> In r hosts_data /\ has_interface_ip r = true) ->
  reachable_tables hosts_data st ->
  exists st',
    store_name_partition use_server_id name part st = (Ok tt, st') /\
    reachable_tables hosts_data st' /\ servers st' = servers st.
Proof.
  forget_collaborators.
  intros Hpart Hst.
  assert (Hall : exists st',
             for_each part (fun data => _store_host_data (sv_id data) data true) st
             = (Ok tt, st') /\
             (reachable_tables hosts_data st' /\ servers st' = servers st)).
  { apply for_each_invariant
      with (P := fun r => In r hosts_data /\ has_interface_ip r = true)
           (I := fun s => reachable_tables hosts_data s /\ servers s = servers st);
      [|exact Hpart|now split].
    intros x st0 [Hx Hip] [H0 Hs0].
    destruct (store_host_data_reachable hosts_data (sv_id x) x true st0 Hx Hip H0)
      as (st1 & H1 & Hr1 & Hs1).
    exists st1. split; [exact H1|]. split; [exact Hr1|]. congruence. }
  unfold store_name_partition.
  destruct part as [|first rest].
  - cbn. destruct use_server_id; cbn; exists st; (split; [reflexivity|]); now split.
  - assert (Hfirst : exists st',
               (s0 <- first_server (first :: rest) ;;
                _store_host_data name s0 false) st = (Ok tt, st') /\
               (reachable_tables hosts_data st' /\ servers st' = servers st)).
    { unfold bind; cbn [first_server ret].
      destruct (Hpart first) as [Hin Hip]; [now left|].
      now apply store_host_data_reachable. }
    destruct ((List.length (first :: rest) =? 1)%nat && negb use_server_id)%bool;
      [exact Hfirst|].
    destruct ((List.length (server_ids (first :: rest)) =? 1)%nat
              && negb use_server_id)%bool; [exact Hfirst | exact Hall].
Qed.

Lemma group_by_name_members (Q : server -> Prop) (kept : list server)
      (d : PyDict.t (list server)) :
  (forall name part r, In (name, part) d -> In r part -> Q r) ->
  (forall r, In r kept -> Q r) ->
  forall name part r,
    In (name, part) (group_by_name kept d) -> In r part -> Q r.
Proof.
  forget_collaborators.
  revert d. induction kept as [|s rest IH]; intros d Hd Hk; [exact Hd|].
  cbn [group_by_name fold_left]. apply IH.
  - intros name part r Hin Hr. apply in_append_to in Hin.
    destruct Hin as [Hin|(-> & before & -> & Hb)]; [now apply (Hd name part)|].
    apply in_app_iff in Hr. destruct Hr as [Hr|[<-|[]]]; [|apply Hk; now left].
    destruct Hb as [->|Hb]; [now elim Hr | now apply (Hd _ _ _ Hb)].
  - intros r Hr. apply Hk. now right.
Qed.

Lemma retained_without_show_all (show : yaml) (hosts_data : list server) :
  yaml_truthy show = false ->
  retained show hosts_data = filter has_interface_ip hosts_data.
Proof.
  forget_collaborators.
  intros H. unfold retained. apply filter_ext. intros s.
  rewrite H. apply orb_false_r.
Qed.

Lemma filter_twice {A} (f : A -> bool) (l : list A) :
  filter f (filter f l) = filter f l.
Proof.
  forget_collaborators.
  induction l as [|x r IH]; [reflexivity|].
  cbn [filter]. destruct (f x) eqn:E; [|exact IH].
  cbn [filter]. now rewrite E, IH.
Qed.

(** C2.  With [show_all] unset, [_populate_inventory_hosts] behaves on a
    record list as on the list without its records that lack
    [interface_ip]: those records are dropped by the first loop.  Started
    with the empty tables of [_populate_inventory], it returns, no entry of
    the host table holds a record without [interface_ip], and the members
    of every group are hosts of that table. *)
Theorem unreachable_servers_are_dropped (hosts_data : list server) (st : plugin) :
  yaml_truthy (show_all st) = false ->
  servers st = [] ->
  hostvars st = [] ->
  groups st = [] ->
  _populate_inventory_hosts hosts_data st
  = _populate_inventory_hosts (filter has_interface_ip hosts_data) st /\
  exists st',
    _populate_inventory_hosts hosts_data st = (Ok tt, st') /\
    (forall name part r,
        In (name, part) (servers st') -> In r part ->
        has_interface_ip r = true) /\
    (forall h e,
        In (h, e) (hostvars st') ->
        In (openstack e) hosts_data /\ has_interface_ip (openstack e) = true) /\
    (forall g members h,
        In (g, members) (groups st') -> In h members ->
        PyDict.contains (hostvars st') h = true).
Proof.
  forget_collaborators.
  intros Hshow Hs Hv Hg.
  assert (Hrun : forall l,
             _populate_inventory_hosts l st =
             for_each (group_by_name (retained (show_all st) l) [])
                      (fun item =>
                         store_name_partition
                           (negb (yaml_eq_str
                                    (cfg_get_default (_config_data st)
                                                     "inventory_hostname"
                                                     (YStr "name")) "name"))
                           (fst item) (snd item))
                      (set_servers (group_by_name (retained (show_all st) l) []) st)).
  { intros l. unfold _populate_inventory_hosts. unfold bind at 1. cbn [gets].
    unfold bind at 1. rewrite collect_spec, Hs. reflexivity. }
  split.
  - rewrite !Hrun, !retained_without_show_all by exact Hshow.
    now rewrite filter_twice.
  - rewrite Hrun. set (by_name := group_by_name _ _).
    set (use_server_id :=
           negb (yaml_eq_str (cfg_get_default (_config_data st)
                                              "inventory_hostname"
                                              (YStr "name")) "name")).
    assert (Hmem : forall name part r,
               In (name, part) by_name -> In r part ->
               In r hosts_data /\ has_interface_ip r = true).
    { apply group_by_name_members; [intros ? ? ? []|].
      intros r Hr. rewrite retained_without_show_all in Hr by exact Hshow.
      now apply filter_In in Hr. }
    destruct (for_each_invariant
                (fun s => reachable_tables hosts_data s /\ servers s = by_name)
                (fun item => In item by_name)
                (fun item => store_name_partition use_server_id (fst item) (snd item))
                by_name (set_servers by_name st))
      as (st' & Hst' & [[Hv' Hg'] Hs']).
    + intros [name part] st0 Hin [H0 Hs0].
      destruct (store_name_partition_reachable
                  hosts_data use_server_id name part st0)
        as (st1 & H1 & Hr1 & Hs1);
        [intros r Hr; now apply (Hmem name part) | exact H0 |].
      exists st1. split; [exact H1|]. split; [exact Hr1|]. congruence.
    + trivial.
    + split; [|reflexivity]. split; cbn; rewrite ?Hv, ?Hg; intros; contradiction.
    + exists st'. split; [exact Hst'|]. split; [|split; assumption].
      intros name part r Hin Hr. rewrite Hs' in Hin.
      now apply (Hmem name part r).
Qed.

(** ** Further properties of the group rules, lines 359-409 *)

(** X1.  The groups of a record start with its cloud; the region follows
    only when it is not empty, and the combined cloud-region group comes
    next in both cases, with an empty region part when there is none. *)
Theorem region_rule (s : server) (namegroup : bool) :
  (sv_region s = "" ->
   exists rest,
     _get_group_names_from_server_data s namegroup
     = sv_cloud s :: (sv_cloud s ++ "_") :: rest) /\
  (sv_region s <> "" ->
   exists rest,
     _get_group_names_from_server_data s namegroup
     = sv_cloud s :: sv_region s :: (sv_cloud s ++ "_" ++ sv_region s) :: rest).
Proof.
  forget_collaborators.
  rewrite group_names_parts. cbv zeta. unfold PyStr.fmt_underscore. split.
  - intros ->. cbn [PyStr.truthy app]. eexists. reflexivity.
  - intros H. destruct (sv_region s) as [|c r] eqn:E; [now elim H|].
    cbn [PyStr.truthy app]. eexists. reflexivity.
Qed.

(** X2.  A record with a non-empty availability zone gets three more
    groups, placed last: the zone, region_zone and cloud_region_zone. *)
Theorem az_rule (s : server) (namegroup : bool) (az : string) :
  sv_az s = Some az ->
  az <> "" ->
  exists front,
    _get_group_names_from_server_data s namegroup
    = (front ++ [az; (sv_region s ++ "_" ++ az)%string;
                 (sv_cloud s ++ "_" ++ sv_region s ++ "_" ++ az)%string])%list /\
    front = _get_group_names_from_server_data
              (mkServer (sv_id s) (sv_name s) (sv_cloud s) (sv_region s) None
                        (sv_interface_ip s) (sv_flavor s) (sv_image s)
                        (sv_metadata s))
              namegroup.
Proof.
  forget_collaborators.
  intros Haz Hne. eexists. split; [|reflexivity].
  rewrite !group_names_parts. cbv zeta. cbn [sv_cloud sv_region sv_metadata sv_id sv_name].
  unfold az_groups at 1. rewrite Haz.
  destruct az as [|c r]; [now elim Hne|]. cbn [PyStr.truthy].
  unfold az_groups, flavor_image_groups, server_mapping.
  cbn [sv_az sv_flavor sv_image]. unfold PyStr.fmt_underscore.
  rewrite !app_nil_r. rewrite <- !app_assoc. reflexivity.
Qed.

(** X3.  Without an availability zone, or with an empty one, no zone group
    is added: the groups are those of the record without the key. *)
Theorem no_az_no_group (s : server) (namegroup : bool) :
  sv_az s = None \/ sv_az s = Some "" ->
  _get_group_names_from_server_data s namegroup
  = _get_group_names_from_server_data
      (mkServer (sv_id s) (sv_name s) (sv_cloud s) (sv_region s) None
                (sv_interface_ip s) (sv_flavor s) (sv_image s) (sv_metadata s))
      namegroup.
Proof.
  forget_collaborators.
  intros H. rewrite !group_names_parts. cbv zeta.
  cbn [sv_cloud sv_region sv_metadata sv_id sv_name].
  unfold az_groups, flavor_image_groups, server_mapping.
  cbn [sv_az sv_flavor sv_image]. destruct H as [-> | ->]; reflexivity.
Qed.

(** X4.  Every key/value pair of the metadata, the reserved keys [group]
    and [groups] included, gives the group [meta-key_value]. *)
Theorem every_metadata_pair_yields_group
    (s : server) (namegroup : bool) (metadata : PyDict.t string)
    (key value : string) :
  sv_metadata s = Some metadata ->
  In (key, value) metadata ->
  In ("meta-" ++ key ++ "_" ++ value)
     (_get_group_names_from_server_data s namegroup).
Proof.
  forget_collaborators.
  intros Hm Hin. rewrite group_names_parts, Hm. cbv zeta.
  rewrite !in_app_iff. do 8 right. left.
  unfold meta_groups. apply in_map_iff. exists (key, value). now split.
Qed.

(** X5.  A record without metadata gets no group from the metadata rules:
    its groups are the cloud, region, instance, name, flavor, image and
    zone groups only. *)
Theorem no_metadata_no_group (s : server) (namegroup : bool) :
  sv_metadata s = None \/ sv_metadata s = Some [] ->
  _get_group_names_from_server_data s namegroup
  = ([sv_cloud s]
     ++ (if PyStr.truthy (sv_region s) then [sv_region s] else [])
     ++ [(sv_cloud s ++ "_" ++ sv_region s)%string]
     ++ [("instance-" ++ sv_id s)%string]
     ++ (if namegroup then [sv_name s] else [])
     ++ flavor_image_groups s
     ++ az_groups s)%list.
Proof.
  forget_collaborators.
  intros H. rewrite group_names_parts. cbv zeta.
  destruct H as [-> | ->]; reflexivity.
Qed.

(** X6.  A flavor that has a [name] gives the group [flavor-name], and an
    image that has a [name] gives the group [image-name], whatever else
    the two mappings hold. *)
Theorem flavor_image_rule (s : server) (namegroup : bool) :
  (forall n, PyDict.get (sv_flavor s) "name" = Some n ->
             In ("flavor-" ++ n) (_get_group_names_from_server_data s namegroup)) /\
  (forall n, PyDict.get (sv_image s) "name" = Some n ->
             In ("image-" ++ n) (_get_group_names_from_server_data s namegroup)).
Proof.
  forget_collaborators.
  rewrite group_names_parts. cbv zeta.
  unfold flavor_image_groups, server_mapping, PyStr.fmt_dash.
  cbn [flat_map String.eqb Ascii.eqb Bool.eqb].
  split; intros n Hn; rewrite Hn, !in_app_iff; do 7 right; left; cbn; tauto.
Qed.

(** *** Stripping and splitting *)

Lemma rstrip_cons (c : ascii) (r : string) :
  PyStr.rstrip (String c r) =
  match PyStr.rstrip r with
  | EmptyString => if PyStr.is_space c then EmptyString else String c EmptyString
  | String a b => String c (String a b)
  end.
Proof. forget_collaborators. reflexivity. Qed.

Lemma rstrip_twice (s : string) : PyStr.rstrip (PyStr.rstrip s) = PyStr.rstrip s.
Proof.
  forget_collaborators.
  induction s as [|c r IH]; [reflexivity|].
  rewrite rstrip_cons. destruct (PyStr.rstrip r) as [|a b] eqn:E.
  - destruct (PyStr.is_space c) eqn:Ec; [reflexivity|].
    rewrite rstrip_cons. cbn [PyStr.rstrip]. now rewrite Ec.
  - rewrite rstrip_cons, IH. reflexivity.
Qed.

(** A string that does not start with white space. *)
Lemma lstrip_of_clean_start (s : string) :
  match s with
  | EmptyString => True
  | String c _ => PyStr.is_space c = false
  end ->
  PyStr.lstrip s = s.
Proof.
  forget_collaborators.
  destruct s as [|c r]; [reflexivity|]. cbn. now intros ->.
Qed.

Lemma lstrip_clean_start (s : string) :
  match PyStr.lstrip s with
  | EmptyString => True
  | String c _ => PyStr.is_space c = false
  end.
Proof.
  forget_collaborators.
  induction s as [|c r IH]; [exact I|].
  cbn [PyStr.lstrip]. destruct (PyStr.is_space c) eqn:E; [exact IH | exact E].
Qed.

Lemma rstrip_clean_start (s : string) :
  match s with
  | EmptyString => True
  | String c _ => PyStr.is_space c = false
  end ->
  match PyStr.rstrip s with
  | EmptyString => True
  | String c _ => PyStr.is_space c = false
  end.
Proof.
  forget_collaborators.
  destruct s as [|c r]; [trivial|]. intros Hc. rewrite rstrip_cons.
  destruct (PyStr.rstrip r); [now rewrite Hc | exact Hc].
Qed.

Lemma strip_twice (s : string) : PyStr.strip (PyStr.strip s) = PyStr.strip s.
Proof.
  forget_collaborators.
  unfold PyStr.strip.
  rewrite (lstrip_of_clean_start (PyStr.rstrip (PyStr.lstrip s)))
    by (apply rstrip_clean_start, lstrip_clean_start).
  apply rstrip_twice.
Qed.

Lemma lstrip_chars (s : string) (c : ascii) :
  In c (list_ascii_of_string (PyStr.lstrip s)) -> In c (list_ascii_of_string s).
Proof.
  forget_collaborators.
  induction s as [|a r IH]; [trivial|].
  cbn [PyStr.lstrip]. destruct (PyStr.is_space a); [|trivial].
  intros H. right. now apply IH.
Qed.

Lemma rstrip_chars (s : string) (c : ascii) :
  In c (list_ascii_of_string (PyStr.rstrip s)) -> In c (list_ascii_of_string s).
Proof.
  forget_collaborators.
  induction s as [|a r IH]; [trivial|].
  rewrite rstrip_cons. destruct (PyStr.rstrip r) as [|x y].
  - destruct (PyStr.is_space a); cbn; [tauto|]. intros [H|[]]. now left.
  - cbn [list_ascii_of_string]. intros [H|H]; [now left|]. right. now apply IH.
Qed.

Lemma split_pieces_have_no_separator (sep : ascii) (s piece : string) :
  In piece (PyStr.split sep s) -> ~ In sep (list_ascii_of_string piece).
Proof.
  forget_collaborators.
  revert piece. induction s as [|c r IH]; intros piece.
  - cbn. intros [<-|[]]. cbn. tauto.
  - cbn [PyStr.split]. destruct (Ascii.eqb_spec c sep) as [E|E].
    + intros [<-|H]; [cbn; tauto | now apply IH].
    + destruct (PyStr.split sep r) as [|p ps].
      * intros [<-|[]]. cbn. intros [H|[]]. now elim E.
      * intros [<-|H].
        -- cbn [list_ascii_of_string]. intros [H|H]; [now elim E|].
           apply (IH p); [now left | exact H].
        -- apply IH. now right.
Qed.

(** X7.  A group taken from the metadata value [groups] is the stripped
    form of a non-empty comma-separated piece of that value; it contains
    no comma, and stripping it again changes nothing: it has no white
    space at either end. *)
Theorem extra_groups_are_clean (metadata : PyDict.t string) (g : string) :
  In g (extra_groups metadata) ->
  (exists piece,
      In piece (PyStr.split "," (match PyDict.get metadata "groups" with
                                 | Some v => v
                                 | None => ""
                                 end)) /\
      piece <> "" /\ g = PyStr.strip piece) /\
  ~ In ","%char (list_ascii_of_string g) /\
  PyStr.strip g = g.
Proof.
  forget_collaborators.
  unfold extra_groups. rewrite in_flat_map. intros (piece & Hin & Hg).
  destruct piece as [|c r] eqn:Ep; [destruct Hg|]. rewrite <- Ep in *.
  assert (Hne : piece <> "") by (rewrite Ep; discriminate).
  rewrite Ep in Hg at 1. cbn [PyStr.truthy] in Hg. destruct Hg as [<-|[]].
  split; [exists piece; now repeat split|]. split.
  - intros H. apply (split_pieces_have_no_separator _ _ _ Hin).
    unfold PyStr.strip in H. now apply lstrip_chars, rstrip_chars.
  - apply strip_twice.
Qed.

(** X8.  Without a [groups] key in the metadata, the rule adds no group
    at all: the empty default is split into one empty piece, which is
    skipped. *)
Theorem no_groups_key_no_extra_group (metadata : PyDict.t string) :
  PyDict.get metadata "groups" = None \/ PyDict.get metadata "groups" = Some "" ->
  extra_groups metadata = [].
Proof.
  forget_collaborators. unfold extra_groups. intros [-> | ->]; reflexivity.
Qed.

(** ** Further properties of the configuration, lines 172-242 *)

Lemma get_set_other {V} (d : PyDict.t V) (k k' : string) (v : V) :
  k <> k' -> PyDict.get (PyDict.set d k v) k' = PyDict.get d k'.
Proof.
  forget_collaborators.
  intros Hne. induction d as [|[k0 v0] d IH]; cbn.
  - destruct (String.eqb_spec k k'); [contradiction | reflexivity].
  - destruct (String.eqb_spec k0 k) as [E|E]; cbn.
    + subst k0. destruct (String.eqb_spec k k'); [contradiction | reflexivity].
    + now rewrite IH.
Qed.

Lemma get_set_same {V} (d : PyDict.t V) (k : string) (v : V) :
  PyDict.get (PyDict.set d k v) k = Some v.
Proof.
  forget_collaborators.
  induction d as [|[k0 v0] d IH]; cbn.
  - now rewrite String.eqb_refl.
  - destruct (String.eqb_spec k0 k) as [E|E]; cbn.
    + subst k0. now rewrite String.eqb_refl.
    + destruct (String.eqb_spec k0 k); [contradiction | exact IH].
Qed.

Lemma types_ok_iff (data : config) :
  _verify_config_data_types data = true <->
  wrong_type (cfg_get data "clouds_yaml_path") is_list = false /\
  wrong_type (cfg_get data "debug") is_bool = false /\
  wrong_type (cfg_get data "expand_hostvars") is_bool = false /\
  wrong_type (cfg_get data "fail_on_errors") is_bool = false /\
  wrong_type (cfg_get data "only_clouds") is_list = false /\
  wrong_type (cfg_get data "show_all") is_bool = false.
Proof.
  forget_collaborators.
  unfold _verify_config_data_types.
  destruct (wrong_type (cfg_get data "clouds_yaml_path") is_list),
    (wrong_type (cfg_get data "debug") is_bool),
    (wrong_type (cfg_get data "expand_hostvars") is_bool),
    (wrong_type (cfg_get data "fail_on_errors") is_bool),
    (wrong_type (cfg_get data "only_clouds") is_list),
    (wrong_type (cfg_get data "show_all") is_bool);
    (split;
     [intros H; try discriminate H; repeat split
     |intros (H1 & H2 & H3 & H4 & H5 & H6); try reflexivity; discriminate]).
Qed.

Lemma right_type_bool (v : yaml) :
  wrong_type v is_bool = false -> yaml_truthy v = true -> v = YBool true.
Proof.
  forget_collaborators.
  unfold wrong_type. destruct v as [|[|]|n|s|l|m]; cbn; try discriminate;
    try reflexivity; intros H1 H2; rewrite H2 in H1; discriminate.
Qed.

(** X9.  [_verify_config_data] accepts a configuration exactly when it is
    not empty, it names this plugin or, having no [plugin] key, has a
    [clouds] key, and its typed options pass the type check.  Otherwise it
    raises [AnsibleParserError]; in no case does it change the plugin. *)
Theorem verify_config_data_accepts_iff (data : config) (st : plugin) :
  (_verify_config_data data st = (Ok tt, st) <->
   data <> [] /\
   (yaml_eq_str (cfg_get data "plugin") NAME = true \/
    (PyDict.contains data "plugin" = false /\
     PyDict.contains data "clouds" = true)) /\
   _verify_config_data_types data = true) /\
  (_verify_config_data data st = (Ok tt, st) \/
   exists e, _verify_config_data data st = (Raise (AnsibleParserError e), st)).
Proof.
  forget_collaborators.
  unfold _verify_config_data, config_data_error, cfg_get, PyDict.contains.
  destruct data as [|kv data]; cbn [negb].
  - split; [|right; eexists; reflexivity].
    split; [discriminate | now intros [H _]].
  - set (d := kv :: data).
    destruct (PyDict.get d "plugin") as [p|]; cbn [negb andb].
    + destruct (yaml_eq_str p NAME); cbn [negb].
      * destruct (_verify_config_data_types d); cbn [negb].
        -- split; [|now left]. split; [intros _|reflexivity].
           repeat split; [discriminate | now left].
        -- split; [|right; eexists; reflexivity].
           split; [discriminate | now intros (_ & _ & H)].
      * split; [|right; eexists; reflexivity].
        split; [discriminate|]. intros (_ & [H|[H _]] & _); discriminate.
    + cbn [yaml_eq_str]. destruct (PyDict.get d "clouds"); cbn [negb].
      * destruct (_verify_config_data_types d); cbn [negb].
        -- split; [|now left]. split; [intros _|reflexivity].
           repeat split; [discriminate | now right].
        -- split; [|right; eexists; reflexivity].
           split; [discriminate | now intros (_ & _ & H)].
      * split; [|right; eexists; reflexivity].
        split; [discriminate|]. intros (_ & [H|[_ H]] & _); discriminate.
Qed.

(** X10.  A plugin name other than this plugin's is reported first among
    the errors of a non-empty configuration: whatever the types of the
    other options, the error is the name mismatch, with the name found. *)
Theorem wrong_plugin_name_is_reported_first
    (data : config) (found : yaml) (st : plugin) :
  PyDict.get data "plugin" = Some found ->
  yaml_eq_str found NAME = false ->
  _verify_config_data data st
  = (Raise (AnsibleParserError (IncorrectPluginConfig found)), st).
Proof.
  forget_collaborators.
  intros Hp Hn. unfold _verify_config_data, config_data_error, cfg_get,
                  PyDict.contains.
  rewrite Hp, Hn. destruct data; [discriminate | reflexivity].
Qed.

(** X11.  Only six options are type-checked: setting any other key, such
    as [private] or [inventory_hostname], to any value does not change the
    verdict of [_verify_config_data_types]. *)
Theorem untyped_options_are_not_checked
    (data : config) (option : string) (value : yaml) :
  ~ In option typed_options ->
  _verify_config_data_types (PyDict.set data option value)
  = _verify_config_data_types data.
Proof.
  forget_collaborators.
  intros Hn. unfold _verify_config_data_types, cfg_get.
  rewrite !get_set_other; [reflexivity| | | | | |];
    intros E; apply Hn; rewrite E; cbn; tauto.
Qed.

(** X12.  The type check only rejects truthy values: a configuration whose
    typed options are all absent or falsy ([null], [false], [0], an empty
    string, list or mapping) passes, whatever the types of those values. *)
Theorem falsy_options_pass_type_check (data : config) :
  (forall option, In option typed_options ->
                  yaml_truthy (cfg_get data option) = false) ->
  _verify_config_data_types data = true.
Proof.
  forget_collaborators.
  intros H. apply types_ok_iff. unfold wrong_type.
  rewrite !H by (cbn; tauto). repeat split.
Qed.

(** X13.  After [_load_and_verify_plugin_config] has returned, each of the
    three flags of the plugin is either falsy or the boolean [True]; and
    for a configuration without a [clouds] key, the configuration is kept
    and the flags are its values, [False] when absent. *)
Theorem loaded_flags_are_booleans
    (path : string) (data : config) (st st' : plugin) :
  read_config_data path = Ok data ->
  _load_and_verify_plugin_config path st = (Ok tt, st') ->
  (forall flag,
      In flag [expand_hostvars st'; fail_on_errors st'; show_all st'] ->
      yaml_truthy flag = true -> flag = YBool true) /\
  (PyDict.contains data "clouds" = false ->
   _config_data st' = data /\
   expand_hostvars st' = cfg_get_default data "expand_hostvars" (YBool false) /\
   fail_on_errors st' = cfg_get_default data "fail_on_errors" (YBool false) /\
   show_all st' = cfg_get_default data "show_all" (YBool false)).
Proof.
  intros Hr. unfold _load_and_verify_plugin_config. rewrite Hr.
  unfold bind at 1. cbn [modify]. unfold bind at 1.
  unfold _verify_config_data.
  destruct (config_data_error data) eqn:Herr; [discriminate|]. cbn [ret].
  assert (Ht : _verify_config_data_types data = true).
  { unfold config_data_error in Herr.
    destruct (_verify_config_data_types data); [reflexivity|].
    repeat match type of Herr with
           | (if ?c then _ else _) = None => destruct c; try discriminate
           end. }
  apply types_ok_iff in Ht. destruct Ht as (_ & _ & He & Hf & _ & Hs).
  destruct (PyDict.contains data "clouds") eqn:Hc;
    cbv [bind modify gets ret]; cbn; intros E; inversion E; subst st'; cbn.
  - split; [|discriminate].
    intros flag [<-|[<-|[<-|[]]]]; discriminate.
  - split; [|now repeat split].
    unfold cfg_get_default. unfold cfg_get in He, Hf, Hs.
    intros flag [<-|[<-|[<-|[]]]];
      [destruct (PyDict.get data "expand_hostvars")
      |destruct (PyDict.get data "fail_on_errors")
      |destruct (PyDict.get data "show_all")];
      try discriminate; now apply right_type_bool.
Qed.

(** X14.  Once the type check has passed, the list of configuration files
    never raises and leaves the plugin as it is: it is the user's
    [clouds_yaml_path] entries, first, followed by the SDK's default
    locations. *)
Theorem config_files_user_paths_first (st : plugin) :
  _verify_config_data_types (_config_data st) = true ->
  _get_openstack_config_files_list st
  = (Ok ((match cfg_get (_config_data st) "clouds_yaml_path" with
          | YList l => l
          | _ => []
          end) ++ map YStr CONFIG_FILES)%list,
     st).
Proof.
  intros Ht. apply types_ok_iff in Ht. destruct Ht as (Hp & _).
  unfold _get_openstack_config_files_list, bind, gets.
  unfold wrong_type in Hp.
  destruct (cfg_get (_config_data st) "clouds_yaml_path") as [|b|n|s|l|m];
    cbn in *; try reflexivity.
  - now rewrite andb_true_r in Hp; rewrite Hp.
  - now rewrite andb_true_r in Hp; rewrite Hp.
  - now rewrite andb_true_r in Hp; rewrite Hp.
  - now destruct l.
  - destruct m; [reflexivity | discriminate].
Qed.

(** ** Further properties of enumeration and caching, lines 154-306 *)

Lemma hosts_data_reads (st : plugin) :
  snd (_get_hosts_data_from_openstack st) = st.
Proof.
  unfold _get_hosts_data_from_openstack.
  unfold bind at 1.
  pose proof (config_files_list_reads st) as Hf.
  destruct (_get_openstack_config_files_list st) as [[files|e] st1];
    cbn [snd] in Hf; subst st1; [|reflexivity].
  unfold bind at 1.
  pose proof (clouds_inventory_reads files st) as Hi.
  destruct (_get_openstack_clouds_inventory files st) as [[inv|e] st1];
    cbn [snd] in Hi; subst st1; [|reflexivity].
  unfold bind, gets. now destruct (sdk_list_hosts _ _ _).
Qed.

(** X15.  Once the SDK inventory is built, the enumeration neither raises
    nor changes the plugin: it passes the two flags as configured and
    returns what [list_hosts] lists, or the empty list when [list_hosts]
    raises. *)
Theorem hosts_data_is_listing_or_empty
    (st : plugin) (files : list yaml) (inv : os_inventory) :
  fst (_get_openstack_config_files_list st) = Ok files ->
  fst (_get_openstack_clouds_inventory files st) = Ok inv ->
  _get_hosts_data_from_openstack st
  = (Ok (match sdk_list_hosts inv (expand_hostvars st) (fail_on_errors st) with
         | Ok listed => listed
         | Raise _ => []
         end),
     st).
Proof.
  intros Hf Hi. unfold _get_hosts_data_from_openstack.
  rewrite (bind_ok _ _ st st files)
    by (rewrite (surjective_pairing (_ st)), Hf, config_files_list_reads;
        reflexivity).
  rewrite (bind_ok _ _ st st inv)
    by (rewrite (surjective_pairing (_ files st)), Hi, clouds_inventory_reads;
        reflexivity).
  unfold bind, gets. now destruct (sdk_list_hosts _ _ _).
Qed.

(** X16.  When no [only_clouds] filter is configured, or when the SDK has
    found no cloud at all, the SDK inventory is built from the given file
    list, with [private] as configured ([False] by default), and keeps
    every discovered cloud; the plugin is left unchanged. *)
Theorem cloud_inventory_is_passed_through
    (files : list yaml) (discovered : list cloud) (st : plugin) :
  sdk_discover_clouds
    files (cfg_get_default (_config_data st) "private" (YBool false))
  = Ok discovered ->
  yaml_truthy (cfg_get (_config_data st) "only_clouds") = false \/
  discovered = [] ->
  _get_openstack_clouds_inventory files st
  = (Ok (mkOsInventory
           files (cfg_get_default (_config_data st) "private" (YBool false))
           discovered),
     st).
Proof.
  intros Hd Hn. unfold _get_openstack_clouds_inventory, bind, gets.
  rewrite Hd. destruct Hn as [-> | ->]; [reflexivity|].
  now destruct (yaml_truthy _).
Qed.

(** X17.  A failure of the SDK's inventory constructor is not caught: it
    leaves [_get_hosts_data_from_openstack] as raised, with the plugin
    unchanged, because the constructor runs before the [try] block. *)
Theorem discovery_failure_propagates
    (st : plugin) (files : list yaml) (e : exn) :
  fst (_get_openstack_config_files_list st) = Ok files ->
  sdk_discover_clouds
    files (cfg_get_default (_config_data st) "private" (YBool false))
  = Raise e ->
  _get_hosts_data_from_openstack st = (Raise e, st).
Proof.
  intros Hf Hd. unfold _get_hosts_data_from_openstack.
  rewrite (bind_ok _ _ st st files)
    by (rewrite (surjective_pairing (_ st)), Hf, config_files_list_reads;
        reflexivity).
  apply bind_raise.
  unfold _get_openstack_clouds_inventory, bind, gets. now rewrite Hd.
Qed.

(** X18.  With caching on and a non-empty host list cached under the key of
    the configuration path, [parse] does not consult the SDK: it builds
    the inventory from the cached list, so [only_clouds] has no effect
    there. *)
Theorem cache_hit_skips_enumeration
    (path : string) (st st1 : plugin) (first : server) (others : list server) :
  _load_and_verify_plugin_config path st = (Ok tt, st1) ->
  PyDict.get (_cache st1) (get_cache_prefix path) = Some (first :: others) ->
  parse path true st = _populate_inventory (first :: others) st1.
Proof.
  intros Hload Hc. unfold parse. rewrite (bind_ok _ _ _ _ _ Hload).
  unfold _load_cache. cbv [bind gets ret]. rewrite Hc. reflexivity.
Qed.

(** *** What leaves the cache alone *)

Lemma keeps_cache_bind {A B} (m : M A) (k : A -> M B) :
  keeps_cache m -> (forall a, keeps_cache (k a)) -> keeps_cache (bind m k).
Proof.
  forget_collaborators.
  intros Hm Hk st. unfold bind. specialize (Hm st).
  destruct (m st) as [[a|e] st1]; cbn [snd] in *; [|exact Hm].
  now rewrite Hk.
Qed.

Lemma keeps_cache_for_each {A} (l : list A) (body : A -> M unit) :
  (forall x, keeps_cache (body x)) -> keeps_cache (for_each l body).
Proof.
  forget_collaborators.
  intros Hb. induction l as [|x r IH]; [now intros st|].
  cbn [for_each]. apply keeps_cache_bind; [apply Hb | now intros _].
Qed.

Lemma keeps_cache_modify (f : plugin -> plugin) :
  (forall st, _cache (f st) = _cache st) -> keeps_cache (modify f).
Proof. forget_collaborators. intros H st. apply H. Qed.

Lemma keeps_cache_gets {A} (f : plugin -> A) : keeps_cache (gets f).
Proof. forget_collaborators. now intros st. Qed.

Lemma keeps_cache_ret {A} (a : A) : keeps_cache (ret a).
Proof. forget_collaborators. now intros st. Qed.

Lemma keeps_cache_raise {A} (e : exn) : keeps_cache (@raise A e).
Proof. forget_collaborators. now intros st. Qed.

Lemma keeps_cache_emit (c : sink_call) : keeps_cache (emit c).
Proof. forget_collaborators. now intros st. Qed.

Lemma keeps_cache_on_sink (f : sink -> result unit * sink) :
  keeps_cache (on_sink f).
Proof.
  forget_collaborators.
  intros st. unfold on_sink. now destruct (f (inventory st)).
Qed.

Lemma keeps_cache_hostvars_at (host : string) : keeps_cache (hostvars_at host).
Proof.
  forget_collaborators.
  unfold hostvars_at. apply keeps_cache_bind; [apply keeps_cache_gets|].
  intros hv. destruct (PyDict.get hv host);
    [apply keeps_cache_ret | apply keeps_cache_raise].
Qed.

Lemma keeps_cache_store (host : string) (r : server) (namegroup : bool) :
  keeps_cache (_store_host_data host r namegroup).
Proof.
  forget_collaborators.
  unfold _store_host_data. destruct (sv_interface_ip r);
    [|apply keeps_cache_raise].
  apply keeps_cache_bind; [now apply keeps_cache_modify | intros _].
  apply keeps_cache_bind; [apply keeps_cache_emit | intros _].
  apply keeps_cache_for_each. intros g. now apply keeps_cache_modify.
Qed.

Lemma keeps_cache_partition (use_server_id : bool) (name : string)
      (part : list server) :
  keeps_cache (store_name_partition use_server_id name part).
Proof.
  forget_collaborators.
  assert (Hfirst : keeps_cache (s0 <- first_server part ;;
                                _store_host_data name s0 false)).
  { apply keeps_cache_bind; [|intros s0; apply keeps_cache_store].
    destruct part; [apply keeps_cache_raise | apply keeps_cache_ret]. }
  unfold store_name_partition.
  destruct (_ && _)%bool; [exact Hfirst|].
  destruct (_ && _)%bool; [exact Hfirst|].
  apply keeps_cache_for_each. intros r. apply keeps_cache_store.
Qed.

Lemma keeps_cache_populate_hosts (hosts_data : list server) :
  keeps_cache (_populate_inventory_hosts hosts_data).
Proof.
  forget_collaborators.
  unfold _populate_inventory_hosts.
  apply keeps_cache_bind; [apply keeps_cache_gets | intros cfg].
  apply keeps_cache_bind.
  - apply keeps_cache_for_each. intros s. unfold collect_server.
    apply keeps_cache_bind; [apply keeps_cache_gets | intros show].
    destruct (_ && _)%bool; [apply keeps_cache_ret|].
    now apply keeps_cache_modify.
  - intros _. apply keeps_cache_bind; [apply keeps_cache_gets | intros d].
    apply keeps_cache_for_each. intros item. apply keeps_cache_partition.
Qed.

Lemma keeps_cache_populate (hosts_data : list server) :
  keeps_cache (_populate_inventory hosts_data).
Proof.
  unfold _populate_inventory.
  repeat (apply keeps_cache_bind; [now apply keeps_cache_modify | intros _]).
  apply keeps_cache_bind; [apply keeps_cache_populate_hosts | intros _].
  apply keeps_cache_bind.
  - unfold _populate_inventory_variables.
    apply keeps_cache_bind; [apply keeps_cache_gets | intros hv].
    apply keeps_cache_bind.
    + apply keeps_cache_for_each. intros host.
      apply keeps_cache_bind; [apply keeps_cache_gets | intros cfg].
      apply keeps_cache_bind; [apply keeps_cache_hostvars_at | intros e].
      apply keeps_cache_on_sink.
    + intros _. destruct (after_loop (PyDict.keys hv));
        [|apply keeps_cache_raise].
      apply keeps_cache_bind; [apply keeps_cache_hostvars_at | intros e].
      apply keeps_cache_for_each. intros item. apply keeps_cache_emit.
  - intros _. unfold _populate_inventory_groups.
    apply keeps_cache_bind; [apply keeps_cache_gets | intros hv].
    apply keeps_cache_bind.
    + apply keeps_cache_for_each. intros host.
      apply keeps_cache_bind; [apply keeps_cache_gets | intros cfg].
      apply keeps_cache_bind; [apply keeps_cache_hostvars_at | intros e].
      apply keeps_cache_bind; [apply keeps_cache_on_sink | intros _].
      apply keeps_cache_bind; [apply keeps_cache_hostvars_at | intros e'].
      apply keeps_cache_on_sink.
    + intros _. apply keeps_cache_bind; [apply keeps_cache_gets | intros gs].
      apply keeps_cache_for_each. intros item.
      apply keeps_cache_bind; [apply keeps_cache_emit | intros _].
      apply keeps_cache_for_each. intros host. apply keeps_cache_emit.
Qed.

(** X19.  When [parse] has to enumerate (caching off, or nothing cached
    but an empty list) and the enumeration returns, the list it returned
    is in the cache under the key of the configuration path when [parse]
    ends, whether the inventory building that follows returns or raises. *)
Theorem parse_fills_cache
    (path : string) (cache : bool) (st st1 : plugin) (fetched : list server) :
  _load_and_verify_plugin_config path st = (Ok tt, st1) ->
  (if cache
   then no_hosts_data (PyDict.get (_cache st1) (get_cache_prefix path))
   else true) = true ->
  fst (_get_hosts_data_from_openstack st1) = Ok fetched ->
  PyDict.get (_cache (snd (parse path cache st))) (get_cache_prefix path)
  = Some fetched.
Proof.
  intros Hload Hmiss Hf.
  assert (Hh : _get_hosts_data_from_openstack st1 = (Ok fetched, st1))
    by (rewrite (surjective_pairing (_ st1)), Hf, hosts_data_reads; reflexivity).
  unfold parse. rewrite (bind_ok _ _ _ _ _ Hload).
  set (key := get_cache_prefix path) in *.
  assert (Hc : exists o, (if cache then _load_cache key else ret None) st1
                         = (Ok o, st1) /\ no_hosts_data o = true).
  { destruct cache; [|now exists None].
    exists (PyDict.get (_cache st1) key). now split. }
  destruct Hc as (o & Hc1 & Hc2).
  rewrite (bind_ok _ _ _ _ _ Hc1), Hc2. cbv iota.
  unfold bind at 1. unfold bind at 1. rewrite Hh.
  cbv [bind modify ret]. rewrite keeps_cache_populate. cbn [_cache set_cache].
  apply get_set_same.
Qed.

(** ** Further properties of the inventory builder, lines 308-434 *)

Lemma for_each_ext {A} (f g : A -> M unit) (l : list A) (st : plugin) :
  (forall x st0, f x st0 = g x st0) -> for_each l f st = for_each l g st.
Proof.
  forget_collaborators.
  intros H. revert st. induction l as [|x r IH]; intros st; [reflexivity|].
  cbn [for_each]. unfold bind. rewrite H.
  destruct (g x st) as [[[]|e] st1]; [apply IH | reflexivity].
Qed.

Lemma for_each_app {A} (body : A -> M unit) (l1 l2 : list A) (st : plugin) :
  for_each (l1 ++ l2) body st = (for_each l1 body ;;; for_each l2 body) st.
Proof.
  forget_collaborators.
  revert st. induction l1 as [|x r IH]; intros st; [reflexivity|].
  cbn [for_each app]. unfold bind.
  destruct (body x st) as [[[]|e] st1]; [|reflexivity].
  rewrite IH. reflexivity.
Qed.

Lemma for_each_flat_map {A B} (f : A -> list B) (body : B -> M unit)
      (l : list A) (st : plugin) :
  for_each l (fun x => for_each (f x) body) st = for_each (flat_map f l) body st.
Proof.
  forget_collaborators.
  revert st. induction l as [|x r IH]; intros st; [reflexivity|].
  cbn [for_each flat_map]. rewrite for_each_app. unfold bind.
  destruct (for_each (f x) body st) as [[[]|e] st1]; [apply IH | reflexivity].
Qed.

Lemma for_each_map {A B} (f : A -> B) (body : B -> M unit)
      (l : list A) (st : plugin) :
  for_each (map f l) body st = for_each l (fun x => body (f x)) st.
Proof.
  forget_collaborators.
  revert st. induction l as [|x r IH]; intros st; [reflexivity|].
  cbn [for_each map]. unfold bind.
  destruct (body (f x) st) as [[[]|e] st1]; [apply IH | reflexivity].
Qed.

Lemma append_to_flat {X} (d : PyDict.t (list X)) (k : string) (x : X) :
  Permutation (flat_map snd (PyDict.append_to d k x)) (x :: flat_map snd d).
Proof.
  forget_collaborators.
  induction d as [|[k' l] d IH]; [reflexivity|].
  cbn [PyDict.append_to]. destruct (String.eqb k' k); cbn [flat_map snd].
  - rewrite <- app_assoc. cbn [app].
    symmetry. apply Permutation_middle.
  - rewrite IH. symmetry. apply Permutation_middle.
Qed.

Lemma group_by_name_flat (kept : list server) (d : PyDict.t (list server)) :
  Permutation (flat_map snd (group_by_name kept d)) (flat_map snd d ++ kept).
Proof.
  forget_collaborators.
  revert d. induction kept as [|s r IH]; intros d.
  - cbn. now rewrite app_nil_r.
  - cbn [group_by_name fold_left]. fold (group_by_name r).
    rewrite IH, append_to_flat. cbn [app]. apply Permutation_middle.
Qed.

Lemma append_to_new {X} (d : PyDict.t (list X)) (k : string) (x : X) :
  ~ In k (PyDict.keys d) -> PyDict.append_to d k x = (d ++ [(k, [x])])%list.
Proof.
  forget_collaborators.
  induction d as [|[k' l] d IH]; [reflexivity|]. cbn. intros H.
  destruct (String.eqb_spec k' k) as [E|E]; [elim H; now left|].
  rewrite IH; [reflexivity | tauto].
Qed.

Lemma group_by_unique_names (kept : list server) (d : PyDict.t (list server)) :
  NoDup (map sv_name kept) ->
  (forall r, In r kept -> ~ In (sv_name r) (PyDict.keys d)) ->
  group_by_name kept d = (d ++ map (fun r => (sv_name r, [r])) kept)%list.
Proof.
  forget_collaborators.
  revert d. induction kept as [|s r IH]; intros d Hnd Hd.
  - cbn. now rewrite app_nil_r.
  - cbn [group_by_name fold_left]. fold (group_by_name r).
    inversion Hnd as [|? ? Hs Hr]; subst.
    rewrite append_to_new by (apply Hd; now left).
    rewrite IH; [now rewrite <- app_assoc | exact Hr |].
    intros x Hx. unfold PyDict.keys. rewrite map_app, in_app_iff.
    intros [H|[H|[]]].
    + apply (Hd x); [now right | exact H].
    + apply Hs. cbn in H. rewrite H. now apply in_map.
Qed.

Lemma joined_stays (host g : string) (names : list string)
      (d : PyDict.t (list string)) :
  (exists members, PyDict.get d g = Some members /\ In host members) ->
  exists members,
    PyDict.get (fold_left (fun d g => PyDict.append_to d g host) names d) g
    = Some members /\ In host members.
Proof.
  forget_collaborators.
  revert d. induction names as [|n r IH]; intros d H; [exact H|].
  cbn [fold_left]. apply IH. rewrite get_append_to.
  destruct (String.eqb_spec n g) as [E|E]; [|exact H].
  eexists. split; [reflexivity|].
  destruct (PyDict.get d n); [apply in_app_iff; right|]; now left.
Qed.

Lemma joined_all (host g : string) (names : list string)
      (d : PyDict.t (list string)) :
  In g names ->
  exists members,
    PyDict.get (fold_left (fun d g => PyDict.append_to d g host) names d) g
    = Some members /\ In host members.
Proof.
  forget_collaborators.
  revert d. induction names as [|n r IH]; intros d; [intros []|].
  intros [E|Hin]; cbn [fold_left].
  - subst n. apply joined_stays. rewrite get_append_to, String.eqb_refl.
    eexists. split; [reflexivity|].
    destruct (PyDict.get d g); [apply in_app_iff; right|]; now left.
  - now apply IH.
Qed.

(** X22.  Storing a record that has an [interface_ip] returns.  Afterwards
    the host table maps the host identifier to an entry whose two address
    variables are that ip and whose [openstack] variable is the record
    itself; one [add_host] call for the identifier has been made; and the
    identifier is a member of every group derived for the record. *)
Theorem store_host_data_effect
    (host : string) (r : server) (namegroup : bool) (ip : string) (st : plugin) :
  sv_interface_ip r = Some ip ->
  exists st',
    _store_host_data host r namegroup st = (Ok tt, st') /\
    PyDict.get (hostvars st') host = Some (mkEntry ip ip r) /\
    inventory st' = (inventory st ++ [AddHost host])%list /\
    servers st' = servers st /\
    (forall g,
        In g (_get_group_names_from_server_data r namegroup) ->
        exists members,
          PyDict.get (groups st') g = Some members /\ In host members).
Proof.
  forget_collaborators.
  intros Hip. unfold _store_host_data. rewrite Hip.
  unfold bind at 1. cbn [modify]. unfold bind at 1. cbn [emit modify].
  rewrite join_groups_spec. eexists. split; [reflexivity|]. cbn.
  split; [apply get_set_same|]. repeat split.
  intros g Hg. now apply joined_all.
Qed.

(** *** Invariants that hold whatever the outcome *)

Lemma for_each_preserves {A} (I : plugin -> Prop) (body : A -> M unit)
      (l : list A) (st : plugin) :
  (forall x st0, I st0 -> I (snd (body x st0))) ->
  I st -> I (snd (for_each l body st)).
Proof.
  forget_collaborators.
  intros Hb. revert st. induction l as [|x r IH]; intros st HI; [exact HI|].
  cbn [for_each]. unfold bind. specialize (Hb x st HI).
  destruct (body x st) as [[[]|e] st1]; cbn [snd] in *; [now apply IH | exact Hb].
Qed.

Lemma store_keeps_consistent (host : string) (r : server) (namegroup : bool)
      (st : plugin) :
  consistent_tables st ->
  consistent_tables (snd (_store_host_data host r namegroup st)).
Proof.
  forget_collaborators.
  intros (HJ & HK & HG). unfold _store_host_data.
  destruct (sv_interface_ip r) as [ip|] eqn:Eip;
    [|exact (conj HJ (conj HK HG))].
  unfold bind at 1. cbn [modify]. unfold bind at 1. cbn [emit modify].
  rewrite join_groups_spec.
  unfold consistent_tables.
  cbn [snd hostvars inventory groups set_groups set_inventory set_hostvars].
  split; [|split].
  - intros h. rewrite contains_set, in_app_iff, orb_true_iff, <- HJ. split.
    + intros [H|[H|[]]]; [now right|]. left. inversion H.
      apply String.eqb_refl.
    + intros [H|H]; [|now left]. right. left.
      apply String.eqb_eq in H. now subst.
  - intros h e H. destruct (in_set _ _ _ _ _ H) as [[_ ->]|H'].
    + split; [reflexivity | exact Eip].
    + now apply (HK h).
  - intros g members h Hin Hh. rewrite contains_set.
    destruct (joined_members _ _ _ _ _ _ Hin Hh) as [->|(before & Hb & Hhb)].
    + now rewrite String.eqb_refl.
    + rewrite (HG _ _ _ Hb Hhb). apply orb_true_r.
Qed.

Lemma partition_keeps_consistent (use_server_id : bool) (name : string)
      (part : list server) (st : plugin) :
  consistent_tables st ->
  consistent_tables (snd (store_name_partition use_server_id name part st)).
Proof.
  forget_collaborators.
  intros H.
  assert (Hfirst : consistent_tables
                     (snd ((s0 <- first_server part ;;
                            _store_host_data name s0 false) st))).
  { unfold bind. destruct part; cbn [first_server ret raise snd]; [exact H|].
    now apply store_keeps_consistent. }
  unfold store_name_partition.
  destruct (_ && _)%bool; [exact Hfirst|].
  destruct (_ && _)%bool; [exact Hfirst|].
  apply for_each_preserves; [|exact H].
  intros x st0. apply store_keeps_consistent.
Qed.

(** X23.  [_populate_inventory_hosts] keeps the tables consistent whether
    it returns or raises: afterwards the hosts announced to the inventory
    are exactly the keys of the host table, every entry has its two
    address variables equal to the [interface_ip] of its record, and every
    member of a group is a key of the host table. *)
Theorem populate_hosts_keeps_consistent (hosts_data : list server) (st : plugin) :
  consistent_tables st ->
  consistent_tables (snd (_populate_inventory_hosts hosts_data st)).
Proof.
  forget_collaborators.
  intros H. unfold _populate_inventory_hosts. unfold bind at 1. cbn [gets].
  unfold bind at 1. rewrite collect_spec. cbv [bind gets].
  apply for_each_preserves; [|exact H].
  intros item st0. apply partition_keeps_consistent.
Qed.

(** *** Host resolution as a sequence of stores *)

Lemma bind_ret_tt (m : M unit) (st : plugin) : (m ;;; ret tt) st = m st.
Proof.
  forget_collaborators.
  unfold bind. now destruct (m st) as [[[]|e] st1].
Qed.

Lemma partition_runs_calls (use_server_id : bool) (name : string)
      (part : list server) (st : plugin) :
  store_name_partition use_server_id name part st
  = for_each (partition_calls use_server_id name part) run_call st.
Proof.
  forget_collaborators.
  unfold store_name_partition, partition_calls.
  destruct part as [|s0 rest].
  - cbn. now destruct use_server_id.
  - assert (Hfirst : (s <- first_server (s0 :: rest) ;;
                      _store_host_data name s false) st
                     = for_each [(name, s0, false)] run_call st).
    { cbn [for_each]. rewrite bind_ret_tt. reflexivity. }
    destruct (_ && _)%bool; [exact Hfirst|].
    destruct (_ && _)%bool; [exact Hfirst|].
    now rewrite for_each_map.
Qed.

Lemma populate_hosts_runs_calls (hosts_data : list server) (st : plugin) :
  servers st = [] ->
  let by_name := group_by_name (retained (show_all st) hosts_data) [] in
  let use_server_id :=
    negb (yaml_eq_str (cfg_get_default (_config_data st) "inventory_hostname"
                                       (YStr "name")) "name") in
  _populate_inventory_hosts hosts_data st
  = for_each (resolved_calls use_server_id by_name) run_call
             (set_servers by_name st).
Proof.
  forget_collaborators.
  intros Hs by_name use_server_id.
  unfold _populate_inventory_hosts. unfold bind at 1. cbn [gets].
  unfold bind at 1. rewrite collect_spec, Hs. cbv [bind gets].
  cbn [servers set_servers]. fold by_name. fold use_server_id.
  unfold resolved_calls. rewrite <- for_each_flat_map. apply for_each_ext.
  intros item st0. apply partition_runs_calls.
Qed.

Lemma member_stays {X} (d : PyDict.t (list X)) (g k : string) (h x : X) :
  (exists members, PyDict.get d g = Some members /\ In h members) ->
  exists members,
    PyDict.get (PyDict.append_to d k x) g = Some members /\ In h members.
Proof.
  forget_collaborators.
  intros (members & Hg & Hh). rewrite get_append_to.
  destruct (String.eqb_spec k g) as [E|E]; [|now exists members].
  subst k. rewrite Hg. eexists. split; [reflexivity|].
  apply in_app_iff. now left.
Qed.

Lemma member_stays_joined (calls : list store_call)
      (d : PyDict.t (list string)) (g h : string) :
  (exists members, PyDict.get d g = Some members /\ In h members) ->
  exists members,
    PyDict.get (joined_groups calls d) g = Some members /\ In h members.
Proof.
  forget_collaborators.
  revert d. induction calls as [|c rest IH]; intros d H; [exact H|].
  cbn [joined_groups fold_left]. apply IH.
  generalize (_get_group_names_from_server_data (call_record c)
                                                (call_namegroup c)).
  intros names. revert d H. induction names as [|n names IHn]; intros d H;
    [exact H|].
  cbn [fold_left]. apply IHn. now apply member_stays.
Qed.

Lemma joined_groups_members (calls : list store_call)
      (d : PyDict.t (list string)) (c : store_call) (g : string) :
  In c calls ->
  In g (_get_group_names_from_server_data (call_record c) (call_namegroup c)) ->
  exists members,
    PyDict.get (joined_groups calls d) g = Some members /\
    In (call_host c) members.
Proof.
  forget_collaborators.
  revert d. induction calls as [|c0 rest IH]; intros d; [intros []|].
  intros [E|Hin] Hg; cbn [joined_groups fold_left].
  - subst c0. apply (member_stays_joined rest). now apply joined_all.
  - now apply IH.
Qed.

(** The state after [_store_host_data] has run on a record with the
    address [ip]. *)
Lemma store_host_data_state
      (host : string) (r : server) (namegroup : bool) (ip : string) (st : plugin) :
  sv_interface_ip r = Some ip ->
  _store_host_data host r namegroup st
  = (Ok tt,
     set_groups
       (fold_left (fun d g => PyDict.append_to d g host)
                  (_get_group_names_from_server_data r namegroup) (groups st))
       (set_inventory (inventory st ++ [AddHost host])%list
          (set_hostvars (PyDict.set (hostvars st) host (mkEntry ip ip r)) st))).
Proof.
  forget_collaborators.
  intros Hip. unfold _store_host_data. rewrite Hip.
  unfold bind at 1. cbn [modify]. unfold bind at 1. cbn [emit modify].
  rewrite join_groups_spec. reflexivity.
Qed.

(** What a sequence of stores of reachable records leaves behind. *)
Lemma calls_effect (calls : list store_call) (st : plugin) :
  (forall c, In c calls -> has_interface_ip (call_record c) = true) ->
  exists st',
    for_each calls run_call st = (Ok tt, st') /\
    inventory st' = (inventory st ++ map (fun c => AddHost (call_host c)) calls)%list /\
    servers st' = servers st /\
    groups st' = joined_groups calls (groups st) /\
    (forall c,
        In c calls ->
        exists c' ip,
          In c' calls /\ call_host c' = call_host c /\
          sv_interface_ip (call_record c') = Some ip /\
          PyDict.get (hostvars st') (call_host c)
          = Some (mkEntry ip ip (call_record c'))) /\
    (forall h,
        (forall c, In c calls -> call_host c <> h) ->
        PyDict.get (hostvars st') h = PyDict.get (hostvars st) h).
Proof.
  forget_collaborators.
  revert st. induction calls as [|c rest IH]; intros st Hip.
  - exists st. cbn. rewrite app_nil_r. repeat split; try reflexivity.
    intros c [].
  - assert (Hc : exists ip, sv_interface_ip (call_record c) = Some ip).
    { specialize (Hip c (or_introl eq_refl)). unfold has_interface_ip in Hip.
      destruct (sv_interface_ip (call_record c)) as [ip|]; [now exists ip|].
      discriminate. }
    destruct Hc as [ip Hc].
    pose proof (store_host_data_state (call_host c) (call_record c)
                                      (call_namegroup c) ip st Hc) as Hst.
    set (st1 := set_groups _ _) in Hst.
    destruct (IH st1) as (st' & Hrun & Hinv & Hsrv & Hgrp & HA & HD);
      [intros c' Hc'; apply Hip; now right|].
    exists st'. cbn [for_each]. unfold run_call at 1.
    rewrite (bind_ok _ _ _ _ _ Hst).
    split; [exact Hrun|]. split; [|split; [|split; [|split]]].
    + rewrite Hinv. unfold st1. cbn [inventory set_groups set_inventory map].
      now rewrite <- app_assoc.
    + rewrite Hsrv. reflexivity.
    + rewrite Hgrp. reflexivity.
    + intros c0 Hc0.
      destruct (existsb (fun c' => String.eqb (call_host c') (call_host c0)) rest)
        eqn:Ex.
      * apply existsb_exists in Ex. destruct Ex as (c1 & Hc1 & E1).
        apply String.eqb_eq in E1.
        destruct (HA c1 Hc1) as (c' & ip' & Hc' & Eh & Eip & Eg).
        exists c', ip'. rewrite <- E1.
        split; [now right|]. repeat split; assumption.
      * assert (Hnone : forall c', In c' rest -> call_host c' <> call_host c0).
        { intros c' Hc' E. apply String.eqb_eq in E.
          assert (Ht : existsb (fun c' => String.eqb (call_host c') (call_host c0))
                               rest = true)
            by (apply existsb_exists; now exists c').
          rewrite Ht in Ex. discriminate. }
        destruct Hc0 as [E0|Hc0]; [|now elim (Hnone c0 Hc0)].
        subst c0. exists c, ip. split; [now left|].
        split; [reflexivity|]. split; [exact Hc|].
        rewrite (HD _ Hnone). unfold st1.
        cbn [hostvars set_groups set_inventory set_hostvars].
        apply get_set_same.
    + intros h Hh. rewrite HD by (intros c' Hc'; apply Hh; now right).
      unfold st1. cbn [hostvars set_groups set_inventory set_hostvars].
      apply get_set_other. apply Hh. now left.
Qed.

Lemma partition_calls_by_id (name : string) (part : list server) :
  partition_calls true name part = map (fun r => (sv_id r, r, true)) part.
Proof.
  forget_collaborators.
  unfold partition_calls. destruct part as [|s0 rest]; [reflexivity|].
  cbn [negb]. now rewrite !andb_false_r.
Qed.

Lemma flat_map_map_snd {A B C} (f : B -> C) (l : list (A * list B)) :
  flat_map (fun item => map f (snd item)) l = map f (flat_map snd l).
Proof.
  forget_collaborators.
  induction l as [|x r IH]; [reflexivity|].
  cbn [flat_map]. now rewrite map_app, IH.
Qed.

Lemma name_is_a_group (r : server) :
  In (sv_name r) (_get_group_names_from_server_data r true).
Proof.
  forget_collaborators.
  rewrite group_names_parts. cbv zeta. rewrite !in_app_iff.
  do 6 right. left. now left.
Qed.

Lemma map_injective_on {A B} (f : A -> B) (l : list A) (a b : A) :
  NoDup (map f l) -> In a l -> In b l -> f a = f b -> a = b.
Proof.
  forget_collaborators.
  induction l as [|x r IH]; [intros _ []|].
  cbn [map]. intros Hnd Ha Hb E. inversion Hnd as [|? ? Hx Hr]; subst.
  destruct Ha as [<-|Ha], Hb as [<-|Hb]; [reflexivity | | |now apply IH].
  - elim Hx. rewrite E. now apply in_map.
  - elim Hx. rewrite <- E. now apply in_map.
Qed.

(** X20.  In mode [uuid], that is with any [inventory_hostname] other than
    the string [name], when every retained record has an [interface_ip],
    host resolution returns, [self.servers] holds the partitions of the
    retained records by name, and every retained record has been stored
    once, under its own id and with the name group: the inventory has
    received one [add_host] per record, carrying its id, partition by
    partition in the order of [self.servers]; the host table holds under
    each id an entry for a retained record with that id and its address;
    no other key of the host table has changed; and each id is a member of
    the group named after its record. *)
Theorem uuid_mode_resolution (hosts_data : list server) (st : plugin) :
  yaml_eq_str (cfg_get_default (_config_data st) "inventory_hostname"
                               (YStr "name")) "name" = false ->
  servers st = [] ->
  let kept := retained (show_all st) hosts_data in
  (forall r, In r kept -> has_interface_ip r = true) ->
  exists st',
    _populate_inventory_hosts hosts_data st = (Ok tt, st') /\
    servers st' = group_by_name kept [] /\
    (forall name part,
        In (name, part) (servers st') <->
        part = name_partition name kept /\ part <> []) /\
    let order := flat_map snd (servers st') in
    Permutation order kept /\
    inventory st'
    = (inventory st ++ map (fun r => AddHost (sv_id r)) order)%list /\
    groups st'
    = joined_groups (map (fun r => (sv_id r, r, true)) order) (groups st) /\
    (forall r,
        In r kept ->
        exists r' ip,
          In r' kept /\ sv_id r' = sv_id r /\
          sv_interface_ip r' = Some ip /\
          PyDict.get (hostvars st') (sv_id r) = Some (mkEntry ip ip r')) /\
    (forall r,
        In r kept ->
        exists members,
          PyDict.get (groups st') (sv_name r) = Some members /\
          In (sv_id r) members) /\
    (forall h,
        (forall r, In r kept -> sv_id r <> h) ->
        PyDict.get (hostvars st') h = PyDict.get (hostvars st) h).
Proof.
  forget_collaborators.
  intros Hmode Hs kept Hip.
  pose proof (populate_hosts_runs_calls hosts_data st Hs) as Hrun.
  cbv zeta in Hrun. rewrite Hmode in Hrun. cbn [negb] in Hrun.
  fold kept in Hrun.
  set (by_name := group_by_name kept []) in *.
  set (order := flat_map snd by_name).
  assert (Hperm : Permutation order kept) by apply (group_by_name_flat kept []).
  assert (Hcalls : resolved_calls true by_name
                   = map (fun r => (sv_id r, r, true)) order).
  { unfold resolved_calls, order. rewrite <- flat_map_map_snd.
    apply flat_map_ext. intros item. apply partition_calls_by_id. }
  rewrite Hcalls in Hrun.
  assert (Hin : forall r, In r order <-> In r kept).
  { intros r. split; apply Permutation_in; [exact Hperm | now symmetry]. }
  destruct (calls_effect (map (fun r => (sv_id r, r, true)) order)
                         (set_servers by_name st))
    as (st' & Hok & Hinv & Hsrv & Hgrp & HA & HD).
  { intros c Hc. apply in_map_iff in Hc. destruct Hc as (r & <- & Hr).
    apply Hip. now apply Hin. }
  cbn [servers set_servers] in Hsrv.
  exists st'. split; [now rewrite Hrun|]. split; [exact Hsrv|].
  split; [intros name part; rewrite Hsrv; apply in_group_by_name|].
  cbv zeta. rewrite Hsrv. fold order.
  split; [exact Hperm|].
  split; [|split; [|split; [|split]]].
  - rewrite Hinv, map_map. reflexivity.
  - rewrite Hgrp. reflexivity.
  - intros r Hr.
    destruct (HA (sv_id r, r, true)) as (c' & ip & Hc' & Eh & Eip & Eg).
    { apply in_map_iff. exists r. split; [reflexivity | now apply Hin]. }
    apply in_map_iff in Hc'. destruct Hc' as (r' & <- & Hr').
    exists r', ip. split; [now apply Hin|]. repeat split; assumption.
  - intros r Hr. rewrite Hgrp.
    apply (joined_groups_members _ _ (sv_id r, r, true)).
    + apply in_map_iff. exists r. split; [reflexivity | now apply Hin].
    + apply name_is_a_group.
  - intros h Hh. rewrite HD; [reflexivity|].
    intros c Hc. apply in_map_iff in Hc. destruct Hc as (r & <- & Hr).
    apply Hh. now apply Hin.
Qed.

Lemma resolved_calls_singletons (kept : list server) :
  resolved_calls false (map (fun r => (sv_name r, [r])) kept)
  = map (fun r => (sv_name r, r, false)) kept.
Proof.
  forget_collaborators.
  unfold resolved_calls. induction kept as [|r rest IH]; [reflexivity|].
  cbn [map flat_map]. now rewrite IH.
Qed.

(** X21.  In mode [name], when no two retained records share a name and
    every retained record has an [interface_ip], host resolution returns
    and every retained record has been stored once under its name: the
    inventory has received one [add_host] per record, carrying its name,
    in input order; the host table holds under each name the entry of
    that very record, with its address; no other key of the host table
    has changed; and the group table has grown by the groups derived
    without the name group. *)
Theorem unique_names_keyed_by_name (hosts_data : list server) (st : plugin) :
  yaml_eq_str (cfg_get_default (_config_data st) "inventory_hostname"
                               (YStr "name")) "name" = true ->
  servers st = [] ->
  let kept := retained (show_all st) hosts_data in
  NoDup (map sv_name kept) ->
  (forall r, In r kept -> has_interface_ip r = true) ->
  exists st',
    _populate_inventory_hosts hosts_data st = (Ok tt, st') /\
    servers st' = map (fun r => (sv_name r, [r])) kept /\
    inventory st'
    = (inventory st ++ map (fun r => AddHost (sv_name r)) kept)%list /\
    groups st'
    = joined_groups (map (fun r => (sv_name r, r, false)) kept) (groups st) /\
    (forall r,
        In r kept ->
        exists ip,
          sv_interface_ip r = Some ip /\
          PyDict.get (hostvars st') (sv_name r) = Some (mkEntry ip ip r)) /\
    (forall h,
        (forall r, In r kept -> sv_name r <> h) ->
        PyDict.get (hostvars st') h = PyDict.get (hostvars st) h).
Proof.
  forget_collaborators.
  intros Hmode Hs kept Hnd Hip.
  pose proof (populate_hosts_runs_calls hosts_data st Hs) as Hrun.
  cbv zeta in Hrun. rewrite Hmode in Hrun. cbn [negb] in Hrun.
  fold kept in Hrun.
  rewrite (group_by_unique_names kept []) in Hrun by (trivial; intros ? ? []).
  cbn [app] in Hrun. rewrite resolved_calls_singletons in Hrun.
  destruct (calls_effect (map (fun r => (sv_name r, r, false)) kept)
                         (set_servers (map (fun r => (sv_name r, [r])) kept) st))
    as (st' & Hok & Hinv & Hsrv & Hgrp & HA & HD).
  { intros c Hc. apply in_map_iff in Hc. destruct Hc as (r & <- & Hr).
    now apply Hip. }
  exists st'. split; [now rewrite Hrun|].
  split; [exact Hsrv|]. split; [|split; [|split]].
  - rewrite Hinv, map_map. reflexivity.
  - rewrite Hgrp. reflexivity.
  - intros r Hr.
    destruct (HA (sv_name r, r, false)) as (c' & ip & Hc' & Eh & Eip & Eg).
    { apply in_map_iff. now exists r. }
    apply in_map_iff in Hc'. destruct Hc' as (r' & <- & Hr').
    assert (r' = r) by (apply (map_injective_on sv_name kept); assumption).
    subst r'. exists ip. now split.
  - intros h Hh. rewrite HD; [reflexivity|].
    intros c Hc. apply in_map_iff in Hc. destruct Hc as (r & <- & Hr).
    now apply Hh.
Qed.




(** C1, at the failing inputs.  In mode [name] with [show_all] set, a
    retained record without [interface_ip] makes the store of its
    partition raise: a partition made of one such record gets no host
    entry under its name, and in a partition with two distinct ids whose
    first record has no [interface_ip], neither record is stored under its
    id and no name group is made.  The tables stay empty. *)
Theorem name_mode_keyless_partition_raises
    (id name cloud region : string) (az : option string)
    (flavor image : PyDict.t string) (metadata : option (PyDict.t string)) :
  let r := mkServer id name cloud region az None flavor image metadata in
  let st := Sample.configured [] (YBool true) in
  (_populate_inventory_hosts [r] st
   = (Raise (KeyError "interface_ip"), set_servers [(name, [r])] st)) /\
  (_populate_inventory_hosts
     [Sample.bare "1" "a" None; Sample.bare "2" "a" (Some "10.0.0.2")] st
   = (Raise (KeyError "interface_ip"),
      set_servers
        [("a", [Sample.bare "1" "a" None;
                Sample.bare "2" "a" (Some "10.0.0.2")])] st)).
Proof. forget_collaborators. split; reflexivity. Qed.

(** *** Every reachable record is represented *)

(** A call made for a partition is either the single store under the
    partition's name, for a partition with one id, or the store of a
    record under its own id. *)
Lemma partition_calls_shape (use_server_id : bool) (name : string)
      (part : list server) (c : store_call) :
  In c (partition_calls use_server_id name part) ->
  In (call_record c) part /\
  ((call_host c = name /\ partition_calls use_server_id name part = [c]) \/
   call_host c = sv_id (call_record c)).
Proof.
  forget_collaborators.
  unfold partition_calls. destruct part as [|s0 rest]; [intros []|].
  destruct (_ && _)%bool.
  - intros [<-|[]]. split; [now left|]. left. now split.
  - destruct (_ && _)%bool.
    + intros [<-|[]]. split; [now left|]. left. now split.
    + intros Hc. apply in_map_iff in Hc. destruct Hc as (r & <- & Hr).
      split; [exact Hr|]. now right.
Qed.

Lemma partition_calls_cover (use_server_id : bool) (name : string)
      (part : list server) (r : server) :
  In r part ->
  exists c,
    In c (partition_calls use_server_id name part) /\
    sv_id (call_record c) = sv_id r /\
    (call_host c = name \/ call_host c = sv_id r).
Proof.
  forget_collaborators.
  intros Hr. unfold partition_calls.
  destruct part as [|s0 rest]; [destruct Hr|].
  destruct ((List.length (s0 :: rest) =? 1)%nat && negb use_server_id)%bool
    eqn:E1.
  - exists (name, s0, false). split; [now left|]. split; [|now left].
    apply andb_true_iff in E1. destruct E1 as [E1 _].
    apply Nat.eqb_eq in E1. destruct rest; [|discriminate].
    destruct Hr as [<-|[]]. reflexivity.
  - destruct ((List.length (server_ids (s0 :: rest)) =? 1)%nat
              && negb use_server_id)%bool eqn:E2.
    + exists (name, s0, false). split; [now left|]. split; [|now left].
      apply andb_true_iff in E2. destruct E2 as [E2 _].
      apply Nat.eqb_eq in E2. cbn [call_record fst snd].
      apply (nodup_length_one (map sv_id (s0 :: rest))); [exact E2| |].
      * apply in_map. now left.
      * now apply in_map.
    + exists (sv_id r, r, true). split; [|split; [reflexivity | now right]].
      apply in_map_iff. now exists r.
Qed.

(** X24.  With [show_all] unset, starting from an empty [self.servers],
    and when no reachable record has an id that is also the name of a
    reachable record, host resolution returns and every record that has
    an [interface_ip] is represented in the host table: under its name or
    under its id there is an entry for a reachable record of the input
    with the same id. *)
Theorem every_reachable_server_has_entry
    (hosts_data : list server) (st : plugin) (r : server) :
  yaml_truthy (show_all st) = false ->
  servers st = [] ->
  (forall a b,
      In a hosts_data -> In b hosts_data ->
      has_interface_ip a = true -> has_interface_ip b = true ->
      sv_id a <> sv_name b) ->
  In r hosts_data ->
  has_interface_ip r = true ->
  exists st' h e,
    _populate_inventory_hosts hosts_data st = (Ok tt, st') /\
    (h = sv_name r \/ h = sv_id r) /\
    PyDict.get (hostvars st') h = Some e /\
    sv_id (openstack e) = sv_id r /\
    In (openstack e) hosts_data /\
    sv_interface_ip (openstack e) = Some (ansible_host e).
Proof.
  forget_collaborators.
  intros Hshow Hs Hfree Hr Hip.
  pose proof (populate_hosts_runs_calls hosts_data st Hs) as Hrun.
  cbv zeta in Hrun.
  set (use_server_id := negb _) in Hrun.
  set (kept := retained (show_all st) hosts_data) in *.
  set (by_name := group_by_name kept []) in *.
  assert (Hkept : forall x, In x kept <->
                            In x hosts_data /\ has_interface_ip x = true).
  { intros x. unfold kept.
    rewrite retained_without_show_all by exact Hshow. apply filter_In. }
  assert (Hparts : forall name part,
             In (name, part) by_name <->
             part = name_partition name kept /\ part <> [])
    by (intros; apply in_group_by_name).
  assert (Hnd : NoDup (PyDict.keys by_name))
    by (apply group_by_name_NoDup; constructor).
  (* every call belongs to a partition *)
  assert (Hof : forall c,
             In c (resolved_calls use_server_id by_name) ->
             exists name part,
               In (name, part) by_name /\
               In c (partition_calls use_server_id name part) /\
               In (call_record c) kept /\ sv_name (call_record c) = name).
  { intros c Hc. unfold resolved_calls in Hc. apply in_flat_map in Hc.
    destruct Hc as ([name part] & Hin & Hc). cbn [fst snd] in Hc.
    exists name, part. split; [exact Hin|]. split; [exact Hc|].
    destruct (partition_calls_shape _ _ _ _ Hc) as (Hrec & _).
    apply Hparts in Hin. destruct Hin as [-> _].
    apply filter_In in Hrec. destruct Hrec as [Hk Hn].
    split; [exact Hk | now apply String.eqb_eq in Hn]. }
  destruct (calls_effect (resolved_calls use_server_id by_name)
                         (set_servers by_name st))
    as (st' & Hok & _ & _ & _ & HA & _).
  { intros c Hc. destruct (Hof c Hc) as (_ & _ & _ & _ & Hk & _).
    now apply Hkept in Hk. }
  (* the call that covers r *)
  assert (Hrk : In r kept) by (apply Hkept; now split).
  set (part := name_partition (sv_name r) kept).
  assert (Hrp : In r part)
    by (apply filter_In; split; [exact Hrk | apply String.eqb_refl]).
  assert (Hpin : In (sv_name r, part) by_name).
  { apply Hparts. split; [reflexivity|]. intros E. now rewrite E in Hrp. }
  destruct (partition_calls_cover use_server_id (sv_name r) part r Hrp)
    as (c & Hc & Hcid & Hch).
  assert (Hcall : In c (resolved_calls use_server_id by_name)).
  { unfold resolved_calls. apply in_flat_map. now exists (sv_name r, part). }
  destruct (HA c Hcall) as (c' & ip & Hc' & Eh & Eip & Eg).
  destruct (Hof c' Hc') as (n' & part' & Hin' & Hcp' & Hk' & Hn').
  assert (Hid : sv_id (call_record c') = sv_id r).
  { destruct (partition_calls_shape _ _ _ _ Hc) as (Hrec & Hshape).
    assert (Hck : In (call_record c) kept)
      by (apply filter_In in Hrec; tauto).
    destruct (partition_calls_shape _ _ _ _ Hcp') as (_ & Hshape').
    destruct Hshape as [[Hhost Hone]|Hhost];
      destruct Hshape' as [[Hhost' Hone']|Hhost'].
    - (* both stored under a name: the same partition, the same call *)
      assert (En : n' = sv_name r) by congruence.
      rewrite En in Hin', Hcp'.
      assert (Ep : part' = part).
      { apply (in_get by_name) in Hin'; [|exact Hnd].
        apply (in_get by_name) in Hpin; [|exact Hnd]. congruence. }
      rewrite Ep, Hone in Hcp'. destruct Hcp' as [<-|[]]. exact Hcid.
    - (* an id equal to the name of r *)
      exfalso. apply (Hfree (call_record c') r).
      + now apply Hkept in Hk'.
      + exact Hr.
      + now apply Hkept in Hk'.
      + exact Hip.
      + congruence.
    - (* the id of the covering record equal to a name *)
      exfalso. apply (Hfree (call_record c) (call_record c')).
      + now apply Hkept in Hck.
      + now apply Hkept in Hk'.
      + now apply Hkept in Hck.
      + now apply Hkept in Hk'.
      + congruence.
    - congruence. }
  exists st', (call_host c), (mkEntry ip ip (call_record c')).
  split; [now rewrite Hrun|]. split; [destruct Hch; [left|right]; congruence|].
  split; [exact Eg|]. cbn [openstack ansible_host].
  split; [exact Hid|]. split; [|exact Eip]. now apply Hkept in Hk'.
Qed.

(** *** The two passes over the finished tables *)

Lemma set_inventory_same (st : plugin) : set_inventory (inventory st) st = st.
Proof. forget_collaborators. now destruct st. Qed.

Lemma only_sink_ret {A} (a : A) : only_sink (ret a).
Proof. forget_collaborators. intros st. now destruct st. Qed.

Lemma only_sink_raise {A} (e : exn) : only_sink (@raise A e).
Proof. forget_collaborators. intros st. now destruct st. Qed.

Lemma only_sink_gets {A} (f : plugin -> A) : only_sink (gets f).
Proof. forget_collaborators. intros st. now destruct st. Qed.

Lemma only_sink_emit (c : sink_call) : only_sink (emit c).
Proof. forget_collaborators. now intros st. Qed.

Lemma only_sink_on_sink (f : sink -> result unit * sink) : only_sink (on_sink f).
Proof.
  forget_collaborators.
  intros st. unfold on_sink. now destruct (f (inventory st)).
Qed.

Lemma only_sink_bind {A B} (m : M A) (k : A -> M B) :
  only_sink m -> (forall a, only_sink (k a)) -> only_sink (bind m k).
Proof.
  forget_collaborators.
  intros Hm Hk st. unfold bind. specialize (Hm st).
  destruct (m st) as [[a|e] st1]; cbn [snd] in *; [|exact Hm].
  rewrite (Hk a st1). rewrite Hm at 2. reflexivity.
Qed.

Lemma only_sink_for_each {A} (l : list A) (body : A -> M unit) :
  (forall x, only_sink (body x)) -> only_sink (for_each l body).
Proof.
  forget_collaborators.
  intros Hb. induction l as [|x r IH]; [apply only_sink_ret|].
  cbn [for_each]. apply only_sink_bind; [apply Hb | now intros _].
Qed.

Lemma only_sink_hostvars_at (host : string) : only_sink (hostvars_at host).
Proof.
  forget_collaborators.
  unfold hostvars_at. apply only_sink_bind; [apply only_sink_gets|].
  intros hv. destruct (PyDict.get hv host);
    [apply only_sink_ret | apply only_sink_raise].
Qed.

Lemma emits_spec {A} (f : A -> sink_call) (l : list A) (st : plugin) :
  for_each l (fun x => emit (f x)) st
  = (Ok tt, set_inventory (inventory st ++ map f l)%list st).
Proof.
  forget_collaborators.
  revert st. induction l as [|x r IH]; intros st.
  - cbn. rewrite app_nil_r. now destruct st.
  - cbn [for_each map]. unfold bind, emit at 1, modify. rewrite IH.
    cbn [inventory set_inventory]. now rewrite <- app_assoc.
Qed.

Lemma flush_spec (gs : PyDict.t (list string)) (st : plugin) :
  for_each gs
           (fun item =>
              emit (AddGroup (fst item)) ;;;
              let group := add_group_handle (fst item) in
              for_each (snd item) (fun host => emit (AddChild group host)))
           st
  = (Ok tt, set_inventory (inventory st ++ flush_calls gs)%list st).
Proof.
  revert st. induction gs as [|[g members] gs IH]; intros st.
  - cbn. rewrite app_nil_r. now destruct st.
  - cbn [for_each flush_calls flat_map fst snd]. unfold bind at 1.
    unfold bind at 1. cbn [emit modify]. cbv zeta. rewrite emits_spec.
    rewrite IH. cbn [inventory set_inventory].
    rewrite <- !app_assoc. reflexivity.
Qed.

Lemma set_inventory_twice (a b : sink) (st : plugin) :
  set_inventory a (set_inventory b st) = set_inventory a st.
Proof. forget_collaborators. reflexivity. Qed.

Lemma group_body_step (host : string) (st0 st2 : plugin) :
  group_loop_body host st0 = (Ok tt, st2) ->
  exists e,
    PyDict.get (hostvars st0) host = Some e /\
    st2 = set_inventory
            (snd (add_host_to_keyed_groups
                    (cfg_get (_config_data st0) "keyed_groups") e host
                    (snd (add_host_to_composed_groups
                            (cfg_get (_config_data st0) "groups") e host
                            (inventory st0)))))
            st0.
Proof.
  unfold group_loop_body.
  cbv beta iota delta [bind gets hostvars_at on_sink ret raise].
  destruct (PyDict.get (hostvars st0) host) as [e|] eqn:Eg; [|discriminate].
  destruct (add_host_to_composed_groups _ e host (inventory st0))
    as [[[]|x] k1] eqn:E1; [|discriminate].
  change (hostvars (set_inventory k1 st0)) with (hostvars st0).
  rewrite Eg. cbv beta iota.
  change (inventory (set_inventory k1 st0)) with k1.
  destruct (add_host_to_keyed_groups
              (cfg_get (_config_data st0) "keyed_groups") e host k1)
    as [[[]|x] k2] eqn:E2; cbv beta iota; [|discriminate].
  intros E. inversion E. exists e. split; [reflexivity|].
  rewrite E1. cbn [snd]. rewrite E2. reflexivity.
Qed.

Lemma group_loop_spec (l : list string) (st st0 st1 : plugin) :
  hostvars st0 = hostvars st ->
  _config_data st0 = _config_data st ->
  for_each l group_loop_body st0 = (Ok tt, st1) ->
  st1 = set_inventory
          (fold_left
             (fun k host =>
                match PyDict.get (hostvars st) host with
                | Some e =>
                    snd (add_host_to_keyed_groups
                           (cfg_get (_config_data st) "keyed_groups") e host
                           (snd (add_host_to_composed_groups
                                   (cfg_get (_config_data st) "groups") e host k)))
                | None => k
                end)
             l (inventory st0))
          st0.
Proof.
  revert st0. induction l as [|host rest IH]; intros st0 Hv Hc.
  - cbn. intros E. inversion E. now rewrite set_inventory_same.
  - cbn [for_each fold_left]. unfold bind.
    destruct (group_loop_body host st0) as [[[]|x] st2] eqn:Eb; [|discriminate].
    destruct (group_body_step host st0 st2 Eb) as (e & Eg & E2).
    intros Hrest. apply IH in Hrest; [|now rewrite E2|now rewrite E2].
    rewrite Hrest, E2. cbn [inventory set_inventory].
    rewrite <- Hv, <- Hc, Eg. reflexivity.
Qed.

(** X25.  When [_populate_inventory_groups] returns, it has changed
    nothing but the inventory, and the inventory has received, first, for
    every host of the host table in table order, the calls of the
    collaborator for its composed groups and then for its keyed groups,
    and last the group table: for every group in table order, one
    [add_group], then one [add_child] per member in the order in which the
    members were stored. *)
Theorem groups_are_flushed_last (st st' : plugin) :
  _populate_inventory_groups st = (Ok tt, st') ->
  st' = set_inventory
          (delegated_group_calls st ++ flush_calls (groups st))%list st.
Proof.
  unfold _populate_inventory_groups. unfold bind at 1. cbn [gets].
  unfold bind at 1.
  change (for_each (PyDict.keys (hostvars st)) _ st)
    with (for_each (PyDict.keys (hostvars st)) group_loop_body st).
  destruct (for_each (PyDict.keys (hostvars st)) group_loop_body st)
    as [[[]|e] st1] eqn:Eloop; [|discriminate].
  apply (group_loop_spec _ st) in Eloop; [|reflexivity|reflexivity].
  unfold bind. cbn [gets]. rewrite flush_spec.
  intros E. inversion E. rewrite Eloop.
  cbn [inventory set_inventory groups]. reflexivity.
Qed.

Lemma variable_body_step (host : string) (st0 st2 : plugin) :
  variable_loop_body host st0 = (Ok tt, st2) ->
  exists e,
    PyDict.get (hostvars st0) host = Some e /\
    st2 = set_inventory
            (snd (set_composite_vars
                    (cfg_get (_config_data st0) "compose") e host
                    (inventory st0)))
            st0.
Proof.
  unfold variable_loop_body.
  cbv beta iota delta [bind gets hostvars_at on_sink ret raise].
  destruct (PyDict.get (hostvars st0) host) as [e|] eqn:Eg; [|discriminate].
  destruct (set_composite_vars _ e host (inventory st0))
    as [[[]|x] k1] eqn:E1; [|discriminate].
  intros E. inversion E. exists e. split; [reflexivity|].
  rewrite E1. reflexivity.
Qed.

Lemma variable_loop_spec (l : list string) (st st0 st1 : plugin) :
  hostvars st0 = hostvars st ->
  _config_data st0 = _config_data st ->
  for_each l variable_loop_body st0 = (Ok tt, st1) ->
  st1 = set_inventory
          (fold_left
             (fun k host =>
                match PyDict.get (hostvars st) host with
                | Some e =>
                    snd (set_composite_vars
                           (cfg_get (_config_data st) "compose") e host k)
                | None => k
                end)
             l (inventory st0))
          st0.
Proof.
  revert st0. induction l as [|host rest IH]; intros st0 Hv Hc.
  - cbn. intros E. inversion E. now rewrite set_inventory_same.
  - cbn [for_each fold_left]. unfold bind.
    destruct (variable_loop_body host st0) as [[[]|x] st2] eqn:Eb;
      [|discriminate].
    destruct (variable_body_step host st0 st2 Eb) as (e & Eg & E2).
    intros Hrest. apply IH in Hrest; [|now rewrite E2|now rewrite E2].
    rewrite Hrest, E2. cbn [inventory set_inventory].
    rewrite <- Hv, <- Hc, Eg. reflexivity.
Qed.

(** X26.  When [_populate_inventory_variables] returns, it has changed
    nothing but the inventory, and the inventory has received, first, the
    calls of the collaborator for the composite variables of every host of
    the host table in table order, and then exactly three [set_variable]
    calls of the method itself: [ansible_ssh_host], [ansible_host] and
    [openstack] of the last key of the host table.  The method sets these
    variables for no other host. *)
Theorem variables_are_set_for_last_host (st st' : plugin) :
  _populate_inventory_variables st = (Ok tt, st') ->
  exists host e,
    after_loop (PyDict.keys (hostvars st)) = Some host /\
    PyDict.get (hostvars st) host = Some e /\
    st' = set_inventory
            (delegated_variable_calls st
             ++ [SetVariable host "ansible_ssh_host" (VarStr (ansible_ssh_host e));
                 SetVariable host "ansible_host" (VarStr (ansible_host e));
                 SetVariable host "openstack" (VarServer (openstack e))])%list
            st.
Proof.
  unfold _populate_inventory_variables. unfold bind at 1. cbn [gets].
  unfold bind at 1.
  change (for_each (PyDict.keys (hostvars st)) _ st)
    with (for_each (PyDict.keys (hostvars st)) variable_loop_body st).
  destruct (for_each (PyDict.keys (hostvars st)) variable_loop_body st)
    as [[[]|x] st1] eqn:Eloop; [|discriminate].
  apply (variable_loop_spec _ st) in Eloop; [|reflexivity|reflexivity].
  destruct (after_loop (PyDict.keys (hostvars st))) as [host|]; [|discriminate].
  cbv beta iota delta [bind hostvars_at gets].
  assert (Hv : hostvars st1 = hostvars st) by (rewrite Eloop; reflexivity).
  rewrite Hv.
  destruct (PyDict.get (hostvars st) host) as [e|] eqn:Eg; [|discriminate].
  cbn [ret]. rewrite emits_spec. intros E. inversion E.
  exists host, e. split; [reflexivity|]. split; [exact Eg|].
  cbn [map entry_items fst snd]. rewrite Eloop.
  cbn [inventory set_inventory]. reflexivity.
Qed.

(** ** Further property of [verify_file], lines 436-444 *)

(** X27.  For a path made of any prefix followed by one of the four
    recognised names, the verdict of [verify_file] is the verdict of the
    framework's own check: such a path is rejected only when that check
    rejects it. *)
Theorem recognised_name_defers_to_base (prefix name : string) :
  In name config_file_names ->
  verify_file (prefix ++ name) = base_verify_file (prefix ++ name).
Proof.
  intros Hn. unfold verify_file.
  destruct (base_verify_file (prefix ++ name)); [|reflexivity].
  assert (E : PyStr.endswith (prefix ++ name) name = true)
    by (apply endswith_iff; now exists prefix).
  cbn [existsb String.append]. cbn in Hn.
  destruct Hn as [Hn|[Hn|[Hn|[Hn|[]]]]]; subst name; rewrite E;
    rewrite ?orb_true_r; reflexivity.
Qed.

End InventoryModule.

(** C9, as the specification words it, fails: [prod.openstack.yml] is a
    file name other than the four, and the path is accepted. *)
Lemma verify_file_accepts_other_file_name :
  verify_file (fun _ => true) "/etc/ansible/prod.openstack.yml" = true /\
  file_name "/etc/ansible/prod.openstack.yml" = "prod.openstack.yml" /\
  spec_accepts_file "/etc/ansible/prod.openstack.yml" = false.
Proof. repeat split. Qed.

(** C8, at the failing inputs.  As soon as [only_clouds] is a non-empty
    list and the SDK has discovered a cloud, the selection loop reads
    [self.only_clouds], an attribute that does not exist: the selection
    raises instead of keeping the listed clouds. *)
Theorem only_clouds_selection_raises
    (files : list yaml) (first : cloud) (others : list cloud)
    (wanted : yaml) (more : list yaml) (st : plugin) :
  let st0 := set_config_data [("only_clouds", YList (wanted :: more))] st in
  _get_openstack_clouds_inventory (fun _ _ => Ok (first :: others)) files st0
  = (Raise (AttributeError "only_clouds"), st0).
Proof. reflexivity. Qed.

(** The part of C8 that holds: without [only_clouds], or with an empty
    list, every discovered cloud is used. *)
Lemma no_only_clouds_keeps_all
    (discover : list yaml -> yaml -> result (list cloud))
    (files : list yaml) (discovered : list cloud) (st : plugin) :
  yaml_truthy (cfg_get (_config_data st) "only_clouds") = false ->
  discover files (cfg_get_default (_config_data st) "private" (YBool false))
  = Ok discovered ->
  exists inv,
    _get_openstack_clouds_inventory discover files st = (Ok inv, st) /\
    clouds inv = discovered.
Proof.
  intros Hn Hd. unfold _get_openstack_clouds_inventory, bind, gets.
  rewrite Hd, Hn. eexists. split; reflexivity.
Qed.



Lemma metadata_group_and_groups_witness :
  let server_groups := _get_group_names_from_server_data Sample.web01 true in
  In "web" server_groups /\ In "a" server_groups /\ In "b" server_groups /\
  In "meta-group_web" server_groups /\ In "meta-groups_a, b" server_groups.
Proof.
  apply (metadata_group_and_groups
           Sample.web01 true [("group", "web"); ("groups", "a, b")]);
    [reflexivity | left; reflexivity].
Defined.

Lemma enumeration_failure_yields_no_hosts_witness :
  let list_hosts := fun (_ : os_inventory) (_ fail : yaml) =>
    if yaml_truthy fail
    then Raise (CollaboratorError "cloud b is unreachable")
    else Ok [Sample.web01] in
  let discover := fun (_ : list yaml) (_ : yaml) =>
    Ok [mkCloud "a"; mkCloud "b"] in
  let st1 := set_flags (YBool false) (YBool true) (YBool false)
                       (set_config_data Sample.strict_file fresh_plugin) in
  _get_hosts_data_from_openstack [] discover list_hosts st1 = (Ok [], st1) /\
  exists e' st',
    parse (fun _ => Ok Sample.strict_file) (fun p => p) [] discover list_hosts
          Sample.idle Sample.idle Sample.idle (fun g => g)
          "openstack.yml" true fresh_plugin = (Raise e', st') /\
    inventory st' = inventory fresh_plugin /\
    hostvars st' = [] /\
    groups st' = [].
Proof.
  cbv zeta.
  apply (enumeration_failure_yields_no_hosts
           (fun _ => Ok Sample.strict_file) (fun p => p) []
           (fun _ _ => Ok [mkCloud "a"; mkCloud "b"])
           (fun _ _ fail => if yaml_truthy fail
                            then Raise (CollaboratorError "cloud b is unreachable")
                            else Ok [Sample.web01])
           Sample.idle Sample.idle Sample.idle (fun g => g)
           "openstack.yml" true fresh_plugin _ []
           (mkOsInventory [] (YBool false) [mkCloud "a"; mkCloud "b"])
           (CollaboratorError "cloud b is unreachable"));
    reflexivity.
Defined.

Lemma unreachable_servers_are_dropped_witness :
  let st := Sample.configured [] (YBool false) in
  _populate_inventory_hosts Sample.fleet st
  = _populate_inventory_hosts (filter has_interface_ip Sample.fleet) st /\
  exists st',
    _populate_inventory_hosts Sample.fleet st = (Ok tt, st') /\
    (forall name part r,
        In (name, part) (servers st') -> In r part ->
        has_interface_ip r = true) /\
    (forall h e,
        In (h, e) (hostvars st') ->
        In (openstack e) Sample.fleet /\ has_interface_ip (openstack e) = true) /\
    (forall g members h,
        In (g, members) (groups st') -> In h members ->
        PyDict.contains (hostvars st') h = true).
Proof.
  apply (unreachable_servers_are_dropped
           Sample.fleet (Sample.configured [] (YBool false)));
    reflexivity.
Defined.

Lemma az_rule_witness :
  exists front,
    _get_group_names_from_server_data Sample.web01 false
    = (front ++ ["az1"; "_az1"; "rax__az1"])%list /\
    front = _get_group_names_from_server_data
              (mkServer "id-1" "web01" "rax" "" None (Some "10.0.0.1")
                        [("name", "m1.small")] [("id", "img-7")]
                        (Some [("group", "web"); ("groups", "a, b")]))
              false.
Proof.
  apply (az_rule Sample.web01 false "az1"); [reflexivity | discriminate].
Defined.

Lemma no_az_no_group_witness :
  _get_group_names_from_server_data
    (mkServer "id-3" "app01" "rax" "dfw" (Some "") (Some "10.0.0.3")
              [("name", "m1.small")] [] (Some [("group", "web")]))
    true
  = ["rax"; "dfw"; "rax_dfw"; "web"; "instance-id-3"; "app01";
     "flavor-m1.small"; "meta-group_web"].
Proof.
  apply (no_az_no_group
           (mkServer "id-3" "app01" "rax" "dfw" (Some "") (Some "10.0.0.3")
                     [("name", "m1.small")] [] (Some [("group", "web")]))
           true).
  right. reflexivity.
Defined.

Lemma every_metadata_pair_yields_group_witness :
  In "meta-groups_a, b" (_get_group_names_from_server_data Sample.web01 true).
Proof.
  apply (every_metadata_pair_yields_group
           Sample.web01 true [("group", "web"); ("groups", "a, b")]
           "groups" "a, b");
    [reflexivity | right; left; reflexivity].
Defined.

Lemma no_metadata_no_group_witness :
  _get_group_names_from_server_data (Sample.bare "1" "a" None) true
  = ["c"; "r"; "c_r"; "instance-1"; "a"].
Proof.
  apply (no_metadata_no_group (Sample.bare "1" "a" None) true). left. reflexivity.
Defined.

Lemma extra_groups_are_clean_witness :
  (exists piece,
      In piece (PyStr.split "," "a, b") /\
      piece <> "" /\ "b" = PyStr.strip piece) /\
  ~ In ","%char (list_ascii_of_string "b") /\
  PyStr.strip "b" = "b".
Proof.
  apply (extra_groups_are_clean [("group", "web"); ("groups", "a, b")] "b").
  right. left. reflexivity.
Defined.

Lemma no_groups_key_no_extra_group_witness :
  extra_groups [("group", "web")] = [].
Proof.
  apply (no_groups_key_no_extra_group [("group", "web")]). left. reflexivity.
Defined.

Lemma wrong_plugin_name_is_reported_first_witness :
  _verify_config_data
    [("plugin", YStr "openstack"); ("show_all", YStr "yes")] fresh_plugin
  = (Raise (AnsibleParserError (IncorrectPluginConfig (YStr "openstack"))),
     fresh_plugin).
Proof.
  apply (wrong_plugin_name_is_reported_first
           [("plugin", YStr "openstack"); ("show_all", YStr "yes")]
           (YStr "openstack") fresh_plugin); reflexivity.
Defined.

Lemma untyped_options_are_not_checked_witness :
  _verify_config_data_types
    (PyDict.set Sample.strict_file "private" (YStr "sometimes"))
  = _verify_config_data_types Sample.strict_file.
Proof.
  apply (untyped_options_are_not_checked
           Sample.strict_file "private" (YStr "sometimes")).
  cbn. intros [H|[H|[H|[H|[H|[H|[]]]]]]]; discriminate.
Defined.

Lemma falsy_options_pass_type_check_witness :
  _verify_config_data_types
    [("plugin", YStr "openstack-inventory"); ("show_all", YStr "");
     ("debug", YInt 0); ("only_clouds", YNull)] = true.
Proof.
  apply (falsy_options_pass_type_check
           [("plugin", YStr "openstack-inventory"); ("show_all", YStr "");
            ("debug", YInt 0); ("only_clouds", YNull)]).
  cbn. intros option [<-|[<-|[<-|[<-|[<-|[<-|[]]]]]]]; reflexivity.
Defined.

Lemma loaded_flags_are_booleans_witness :
  let st' := set_flags (YBool false) (YBool true) (YBool false)
                       (set_config_data Sample.strict_file fresh_plugin) in
  (forall flag,
      In flag [expand_hostvars st'; fail_on_errors st'; show_all st'] ->
      yaml_truthy flag = true -> flag = YBool true) /\
  (PyDict.contains Sample.strict_file "clouds" = false ->
   _config_data st' = Sample.strict_file /\
   expand_hostvars st'
   = cfg_get_default Sample.strict_file "expand_hostvars" (YBool false) /\
   fail_on_errors st'
   = cfg_get_default Sample.strict_file "fail_on_errors" (YBool false) /\
   show_all st' = cfg_get_default Sample.strict_file "show_all" (YBool false)).
Proof.
  apply (loaded_flags_are_booleans
           (fun _ => Ok Sample.strict_file) "openstack.yml" Sample.strict_file
           fresh_plugin); reflexivity.
Defined.

Lemma config_files_user_paths_first_witness :
  let st := set_config_data
              [("plugin", YStr "openstack-inventory");
               ("clouds_yaml_path", YList [YStr "/srv/clouds.yaml"])]
              fresh_plugin in
  _get_openstack_config_files_list ["/etc/openstack/clouds.yaml"] st
  = (Ok [YStr "/srv/clouds.yaml"; YStr "/etc/openstack/clouds.yaml"], st).
Proof.
  apply (config_files_user_paths_first
           ["/etc/openstack/clouds.yaml"]
           (set_config_data
              [("plugin", YStr "openstack-inventory");
               ("clouds_yaml_path", YList [YStr "/srv/clouds.yaml"])]
              fresh_plugin)).
  reflexivity.
Defined.

Lemma hosts_data_is_listing_or_empty_witness :
  _get_hosts_data_from_openstack
    [] Sample.two_clouds Sample.list_reachable Sample.loaded_plain
  = (Ok [Sample.web01], Sample.loaded_plain).
Proof.
  apply (hosts_data_is_listing_or_empty
           [] Sample.two_clouds Sample.list_reachable Sample.loaded_plain []
           (mkOsInventory [] (YBool false) [mkCloud "a"; mkCloud "b"]));
    reflexivity.
Defined.

Lemma cloud_inventory_is_passed_through_witness :
  _get_openstack_clouds_inventory
    Sample.two_clouds [YStr "/srv/clouds.yaml"] Sample.loaded_plain
  = (Ok (mkOsInventory [YStr "/srv/clouds.yaml"] (YBool false)
                       [mkCloud "a"; mkCloud "b"]),
     Sample.loaded_plain).
Proof.
  apply (cloud_inventory_is_passed_through
           Sample.two_clouds [YStr "/srv/clouds.yaml"]
           [mkCloud "a"; mkCloud "b"] Sample.loaded_plain);
    [reflexivity | left; reflexivity].
Defined.

Lemma discovery_failure_propagates_witness :
  _get_hosts_data_from_openstack
    [] (fun _ _ => Raise (CollaboratorError "no clouds.yaml found"))
    Sample.list_reachable Sample.loaded_plain
  = (Raise (CollaboratorError "no clouds.yaml found"), Sample.loaded_plain).
Proof.
  apply (discovery_failure_propagates
           [] (fun _ _ => Raise (CollaboratorError "no clouds.yaml found"))
           Sample.list_reachable Sample.loaded_plain []);
    reflexivity.
Defined.

Lemma cache_hit_skips_enumeration_witness :
  let st := set_cache [("openstack.yml", [Sample.web01])] fresh_plugin in
  let st1 := set_cache [("openstack.yml", [Sample.web01])] Sample.loaded_plain in
  parse (fun _ => Ok Sample.plain_file) (fun p => p) []
        Sample.two_clouds Sample.list_reachable
        Sample.idle Sample.idle Sample.idle (fun g => g)
        "openstack.yml" true st
  = _populate_inventory Sample.idle Sample.idle Sample.idle (fun g => g)
                        [Sample.web01] st1.
Proof.
  apply (cache_hit_skips_enumeration
           (fun _ => Ok Sample.plain_file) (fun p => p) []
           Sample.two_clouds Sample.list_reachable
           Sample.idle Sample.idle Sample.idle (fun g => g)
           "openstack.yml"
           (set_cache [("openstack.yml", [Sample.web01])] fresh_plugin)
           (set_cache [("openstack.yml", [Sample.web01])] Sample.loaded_plain)
           Sample.web01 []);
    reflexivity.
Defined.

Lemma parse_fills_cache_witness :
  PyDict.get
    (_cache (snd (parse (fun _ => Ok Sample.plain_file) (fun p => p) []
                        Sample.two_clouds Sample.list_reachable
                        Sample.idle Sample.idle Sample.idle (fun g => g)
                        "openstack.yml" true fresh_plugin)))
    "openstack.yml"
  = Some [Sample.web01].
Proof.
  apply (parse_fills_cache
           (fun _ => Ok Sample.plain_file) (fun p => p) []
           Sample.two_clouds Sample.list_reachable
           Sample.idle Sample.idle Sample.idle (fun g => g)
           "openstack.yml" true fresh_plugin Sample.loaded_plain
           [Sample.web01]);
    reflexivity.
Defined.

(** The plugin after host resolution on the sample fleet. *)
Definition stored_fleet : plugin :=
  snd (_populate_inventory_hosts Sample.fleet (Sample.configured [] (YBool false))).

Lemma store_host_data_effect_witness :
  exists st',
    _store_host_data "web01" Sample.web01 false (Sample.configured [] (YBool false))
    = (Ok tt, st') /\
    PyDict.get (hostvars st') "web01"
    = Some (mkEntry "10.0.0.1" "10.0.0.1" Sample.web01) /\
    inventory st' = [AddHost "web01"] /\
    servers st' = [] /\
    (forall g,
        In g (_get_group_names_from_server_data Sample.web01 false) ->
        exists members,
          PyDict.get (groups st') g = Some members /\ In "web01" members).
Proof.
  apply (store_host_data_effect
           "web01" Sample.web01 false "10.0.0.1"
           (Sample.configured [] (YBool false))).
  reflexivity.
Defined.

Lemma populate_hosts_keeps_consistent_witness :
  consistent_tables
    (snd (_populate_inventory_hosts
            Sample.fleet (Sample.configured [] (YBool true)))).
Proof.
  apply (populate_hosts_keeps_consistent
           Sample.fleet (Sample.configured [] (YBool true))).
  split; [|split].
  - intros h. split; [intros [] | discriminate].
  - intros h e [].
  - intros g members h [].
Defined.

Lemma groups_are_flushed_last_witness :
  snd (_populate_inventory_groups
         (Sample.tagging "composed") (Sample.tagging "keyed") (fun g => g)
         stored_fleet)
  = set_inventory
      (delegated_group_calls
         (Sample.tagging "composed") (Sample.tagging "keyed") stored_fleet
       ++ flush_calls (fun g => g) (groups stored_fleet))%list
      stored_fleet.
Proof.
  refine (groups_are_flushed_last
            (Sample.tagging "composed") (Sample.tagging "keyed") (fun g => g)
            stored_fleet
            (snd (_populate_inventory_groups
                    (Sample.tagging "composed") (Sample.tagging "keyed")
                    (fun g => g) stored_fleet)) _).
  vm_compute. reflexivity.
Defined.

Lemma variables_are_set_for_last_host_witness :
  exists host e,
    after_loop (PyDict.keys (hostvars stored_fleet)) = Some host /\
    PyDict.get (hostvars stored_fleet) host = Some e /\
    snd (_populate_inventory_variables (Sample.tagging "composite") stored_fleet)
    = set_inventory
        (delegated_variable_calls (Sample.tagging "composite") stored_fleet
         ++ [SetVariable host "ansible_ssh_host" (VarStr (ansible_ssh_host e));
             SetVariable host "ansible_host" (VarStr (ansible_host e));
             SetVariable host "openstack" (VarServer (openstack e))])%list
        stored_fleet.
Proof.
  refine (variables_are_set_for_last_host
            (Sample.tagging "composite") stored_fleet
            (snd (_populate_inventory_variables
                    (Sample.tagging "composite") stored_fleet)) _).
  vm_compute. reflexivity.
Defined.

Lemma uuid_mode_resolution_witness :
  exists st',
    _populate_inventory_hosts Sample.fleet Sample.by_uuid = (Ok tt, st') /\
    servers st'
    = group_by_name (retained (show_all Sample.by_uuid) Sample.fleet) [] /\
    (forall name part,
        In (name, part) (servers st') <->
        part = name_partition name
                              (retained (show_all Sample.by_uuid) Sample.fleet) /\
        part <> []) /\
    Permutation (flat_map snd (servers st'))
                (retained (show_all Sample.by_uuid) Sample.fleet) /\
    inventory st'
    = (inventory Sample.by_uuid
       ++ map (fun r => AddHost (sv_id r)) (flat_map snd (servers st')))%list /\
    groups st'
    = joined_groups
        (map (fun r => (sv_id r, r, true)) (flat_map snd (servers st')))
        (groups Sample.by_uuid) /\
    (forall r,
        In r (retained (show_all Sample.by_uuid) Sample.fleet) ->
        exists r' ip,
          In r' (retained (show_all Sample.by_uuid) Sample.fleet) /\
          sv_id r' = sv_id r /\
          sv_interface_ip r' = Some ip /\
          PyDict.get (hostvars st') (sv_id r) = Some (mkEntry ip ip r')) /\
    (forall r,
        In r (retained (show_all Sample.by_uuid) Sample.fleet) ->
        exists members,
          PyDict.get (groups st') (sv_name r) = Some members /\
          In (sv_id r) members) /\
    (forall h,
        (forall r,
            In r (retained (show_all Sample.by_uuid) Sample.fleet) ->
            sv_id r <> h) ->
        PyDict.get (hostvars st') h = PyDict.get (hostvars Sample.by_uuid) h).
Proof.
  refine (uuid_mode_resolution Sample.fleet Sample.by_uuid eq_refl eq_refl _).
  intros r Hr. cbn in Hr.
  destruct Hr as [<-|[<-|[<-|[<-|[]]]]]; reflexivity.
Defined.

Lemma unique_names_keyed_by_name_witness :
  exists st',
    _populate_inventory_hosts
      Sample.distinct_names (Sample.configured [] (YBool false))
    = (Ok tt, st') /\
    servers st'
    = map (fun r => (sv_name r, [r]))
          (retained (YBool false) Sample.distinct_names) /\
    inventory st'
    = map (fun r => AddHost (sv_name r))
          (retained (YBool false) Sample.distinct_names) /\
    groups st'
    = joined_groups
        (map (fun r => (sv_name r, r, false))
             (retained (YBool false) Sample.distinct_names))
        [] /\
    (forall r,
        In r (retained (YBool false) Sample.distinct_names) ->
        exists ip,
          sv_interface_ip r = Some ip /\
          PyDict.get (hostvars st') (sv_name r) = Some (mkEntry ip ip r)) /\
    (forall h,
        (forall r,
            In r (retained (YBool false) Sample.distinct_names) ->
            sv_name r <> h) ->
        PyDict.get (hostvars st') h = None).
Proof.
  refine (unique_names_keyed_by_name
            Sample.distinct_names (Sample.configured [] (YBool false))
            eq_refl eq_refl _ _).
  - cbn. repeat constructor; cbn; intuition discriminate.
  - intros r Hr. cbn in Hr. destruct Hr as [<-|[<-|[]]]; reflexivity.
Defined.


Lemma every_reachable_server_has_entry_witness :
  exists st' h e,
    _populate_inventory_hosts Sample.fleet (Sample.configured [] (YBool false))
    = (Ok tt, st') /\
    (h = "a" \/ h = "2") /\
    PyDict.get (hostvars st') h = Some e /\
    sv_id (openstack e) = "2" /\
    In (openstack e) Sample.fleet /\
    sv_interface_ip (openstack e) = Some (ansible_host e).
Proof.
  refine (every_reachable_server_has_entry
            Sample.fleet (Sample.configured [] (YBool false))
            (Sample.bare "2" "a" (Some "10.0.0.2"))
            eq_refl eq_refl _ _ eq_refl).
  - intros a b Ha Hb Hia Hib. cbn in Ha, Hb.
    destruct Ha as [<-|[<-|[<-|[<-|[<-|[]]]]]];
      destruct Hb as [<-|[<-|[<-|[<-|[<-|[]]]]]];
      try discriminate Hia; try discriminate Hib;
      cbn; intros E; discriminate E.
  - cbn. right. left. reflexivity.
Defined.

Lemma recognised_name_defers_to_base_witness :
  verify_file (fun path => String.eqb path "/etc/ansible/prod.openstack.yml")
              "/etc/ansible/prod.openstack.yml"
  = true.
Proof.
  apply (recognised_name_defers_to_base
           (fun path => String.eqb path "/etc/ansible/prod.openstack.yml")
           "/etc/ansible/prod." "openstack.yml").
  left. reflexivity.
Defined.
